(** * A one-shot liveness monitor: bounded retries, then one alert

    Shallow embedding of [main.py]: the page check ([is_app_alive]), the
    alert ([send_alert_email]) and the retry loop ([run_single_check]).

    The program talks to a headless browser (Selenium) and to an SMTP
    server (smtplib), it prints to the console and it pauses
    ([time.sleep]).  What the browser and the server answer, which
    integers the interpreter writes, what the console can encode and what
    the clock accepts is not decided by the program, so it is a parameter
    of the model, the [environment]; what the program asks them, and in
    which order, is recorded in a trace of [event]s, with the pauses.
    Python's control flow (exceptions, [return] inside a loop, [finally])
    is kept as completions of a small monad. *)

From Stdlib Require Import ZArith NArith List String Ascii Bool Lia.
From Stdlib Require Import PrimFloat FloatOps SpecFloat.
Import ListNotations.
Local Open Scope Z_scope.
Set Warnings "-register-all".

(** ** Python values *)

(** A [str] is a sequence of Unicode code points.  [json.load] keeps lone
    surrogates, which UTF-8 refuses to encode; this is the only property
    of a code point the program depends on. *)
Definition char := N.
Definition str := list char.

(** A literal of the source text (ASCII only). *)
Definition py (s : string) : str := map N_of_ascii (list_ascii_of_string s).
Arguments py s%_string.

Fixpoint str_eqb (a b : str) : bool :=
  match a, b with
  | [], [] => true
  | c :: a', d :: b' => N.eqb c d && str_eqb a' b'
  | _, _ => false
  end.

(** [str.startswith] and the [in] operator on two strings. *)
Fixpoint startswith (needle hay : str) : bool :=
  match needle, hay with
  | [], _ => true
  | c :: needle', d :: hay' => N.eqb c d && startswith needle' hay'
  | _ :: _, [] => false
  end.

Fixpoint str_contains (needle hay : str) : bool :=
  startswith needle hay
  || match hay with
     | [] => false
     | _ :: hay' => str_contains needle hay'
     end.

Definition is_surrogate (c : char) : bool :=
  (N.leb 55296 c && N.leb c 57343)%N.

(** [s.encode("utf-8")] succeeds. *)
Definition utf8_encodable (s : str) : bool :=
  forallb (fun c => negb (is_surrogate c)) s.

(** What [json.load] produces.  An object keeps the order of its keys, as
    a Python [dict] does. *)
Inductive json :=
| JNull
| JBool (b : bool)
| JInt (z : Z)
| JFloat (f : float)
| JStr (s : str)
| JList (items : list json)
| JObj (fields : list (str * json)).

Definition dict := list (str * json).

Fixpoint dict_lookup (k : str) (d : dict) : option json :=
  match d with
  | [] => None
  | (k', v) :: d' => if str_eqb k k' then Some v else dict_lookup k d'
  end.

(** The exceptions of the program, all of them instances of [Exception].
    [WebDriverException] stands for the class and its subclasses,
    [OtherException] for the instances of [Exception] that the program does
    not name (OSError, SMTPException, urllib3's errors, ...).  Interrupts
    ([KeyboardInterrupt], [SystemExit]) are not faults of the program and
    are not modelled. *)
Inductive exn :=
| WebDriverException (detail : str)
| KeyError (key : str)
| TypeError
| ValueError
| OverflowError
| AttributeError
| UnicodeEncodeError
| OtherException (detail : str).

Inductive result (A : Type) :=
| Ok (a : A)
| Err (e : exn).
Arguments Ok {A} a.
Arguments Err {A} e.

(** [bool(v)], as [not v] and [if v] use it. *)
Definition truthy (v : json) : bool :=
  match v with
  | JNull => false
  | JBool b => b
  | JInt z => negb (z =? 0)
  | JFloat f => negb (PrimFloat.eqb f 0%float)
  | JStr s => match s with [] => false | _ => true end
  | JList l => match l with [] => false | _ => true end
  | JObj d => match d with [] => false | _ => true end
  end.

(** [v[k]] for a string key [k]: only a dict can be indexed by a string. *)
Definition py_getitem (v : json) (k : str) : result json :=
  match v with
  | JObj d =>
      match dict_lookup k d with
      | Some x => Ok x
      | None => Err (KeyError k)
      end
  | _ => Err TypeError
  end.

(** [v.get(k, default)]: only a dict has the method. *)
Definition py_get (v : json) (k : str) (default : json) : result json :=
  match v with
  | JObj d =>
      match dict_lookup k d with
      | Some x => Ok x
      | None => Ok default
      end
  | _ => Err AttributeError
  end.

(** [int(f)] on a float: truncation toward zero; infinities and NaN raise. *)
Definition float_trunc (f : float) : result Z :=
  match Prim2SF f with
  | S754_zero _ => Ok 0
  | S754_finite s m e =>
      let v := if 0 <=? e then Z.shiftl (Zpos m) e
               else Z.shiftr (Zpos m) (- e) in
      Ok (if s then - v else v)
  | S754_infinity _ => Err OverflowError
  | S754_nan => Err ValueError
  end.

(** [int(v)].  The grammar of integer literals that [int] accepts in a
    string belongs to the interpreter: [int_of_str] is its parser. *)
Definition py_int (int_of_str : str -> option Z) (v : json) : result Z :=
  match v with
  | JInt z => Ok z
  | JBool b => Ok (if b then 1 else 0)
  | JFloat f => float_trunc f
  | JStr s =>
      match int_of_str s with
      | Some z => Ok z
      | None => Err ValueError
      end
  | JNull | JList _ | JObj _ => Err TypeError
  end.

(** [expected_text in page_source], where [page_source] is a string: the
    left operand must be a string too. *)
Definition py_in (needle : json) (hay : str) : result bool :=
  match needle with
  | JStr s => Ok (str_contains s hay)
  | _ => Err TypeError
  end.

Fixpoint join (sep : str) (parts : list str) : str :=
  match parts with
  | [] => []
  | [p] => p
  | p :: rest => p ++ sep ++ join sep rest
  end.

(** The items of [v] when every one of them is a string. *)
Fixpoint all_str (l : list json) : option (list str) :=
  match l with
  | [] => Some []
  | JStr s :: l' =>
      match all_str l' with
      | Some r => Some (s :: r)
      | None => None
      end
  | _ :: _ => None
  end.

(** [sep.join(v)]: [v] is iterated (a list gives its items, a string its
    characters, a dict its keys) and every item must be a string. *)
Definition py_join (sep : str) (v : json) : result str :=
  match v with
  | JList l =>
      match all_str l with
      | Some parts => Ok (join sep parts)
      | None => Err TypeError
      end
  | JStr s => Ok (join sep (map (fun c => [c]) s))
  | JObj d => Ok (join sep (map fst d))
  | JNull | JBool _ | JInt _ | JFloat _ => Err TypeError
  end.

(** The text that an f-string substitutes for [v] can be encoded: a string
    is substituted as it is, any other value by its [str], which writes the
    strings inside it as [repr] does, escaping what UTF-8 cannot encode. *)
Definition format_encodable (v : json) : bool :=
  match v with
  | JStr s => utf8_encodable s
  | _ => true
  end.

(** ** The alert message *)

(** The message that [send_alert_email] composes.  The body is the fixed
    text of the source around the two values it embeds. *)
Record message := Message {
  msg_from : json;
  msg_to : str;
  msg_subject : json;
  msg_body_url : json;
  msg_body_expected_text : json
}.

(** ** Collaborators *)

(** A browser session is named by its number: the [n]-th call of
    [webdriver.Chrome] (from 0) opens session [n]. *)
Definition session := nat.

(** The lines the program prints, by the statement that prints them. *)
Inductive log :=
| LogStarting
| LogUrl (url : json)
| LogExpectedText (expected_text : json)
| LogRetryDelay (seconds : Z)
| LogMaxAttempts (max_attempts : Z)
| LogAttempt (attempts max_attempts : Z)
| LogAlive
| LogNotAlive
| LogUnexpectedError (attempts : Z) (e : exn)
| LogWaiting (seconds : Z)
| LogStillDown
| LogWebDriverException (e : exn)
| LogEmailDisabled
| LogEmailSent
| LogEmailFailed (e : exn).

(** The answers of the collaborators.  [None] and [Ok] are normal returns,
    [Some e] and [Err e] raise [e].  [int_str] tells whether the
    interpreter writes an integer in decimal (it refuses one of more digits
    than its limit for the conversion, 4300 unless the limit was changed),
    [stdout_encodes] whether the encoding of the console has every
    character of a line, and [clock_sleep] what the platform's clock
    answers to a pause of a length that the interpreter accepts. *)
Record environment := Environment {
  int_of_str : str -> option Z;
  chrome_new : session -> option exn;
  chrome_get : session -> json -> option exn;
  chrome_page_source : session -> result str;
  chrome_quit : session -> option exn;
  smtp_connect : json -> json -> option exn;
  smtp_ehlo : option exn;
  smtp_starttls : option exn;
  smtp_login : json -> json -> option exn;
  smtp_send_message : message -> option exn;
  smtp_exit : option exn;
  int_str : Z -> bool;
  stdout_encodes : log -> bool;
  clock_sleep : Z -> option exn
}.

(** What a run does, in order.  The calls of the two functions that the
    specification counts are recorded beside the calls of the
    collaborators. *)
Inductive event :=
| Print (line : log)
| ChromeNew (options : list str) (r : result session)
| ChromeGet (d : session) (url : json) (r : option exn)
| ChromePageSource (d : session) (r : result str)
| ChromeQuit (d : session) (r : option exn)
| Sleep (seconds : Z)
| SmtpConnect (host port : json) (r : option exn)
| SmtpEhlo (r : option exn)
| SmtpStartTls (r : option exn)
| SmtpLogin (username password : json) (r : option exn)
| SmtpSendMessage (msg : message) (r : option exn)
| SmtpExit (r : option exn)
| CallIsAppAlive (d : session) (url expected_text : json)
| ReturnIsAppAlive (alive : bool)
| CallSendAlertEmail (email_config url expected_text : json).

Definition trace := list event.

(** ** Control flow *)

(** How a statement ends other than by falling through.  [Unfinished] is
    the loop of the model running out of fuel; [run_single_check] never
    ends so (lemma [run_single_check_finishes]). *)
Inductive abrupt :=
| Return_
| Raise (e : exn)
| Unfinished.

Inductive completion (A : Type) :=
| Normal (a : A)
| Abrupt (x : abrupt).
Arguments Normal {A} a.
Arguments Abrupt {A} x.

(** The variables of [run_single_check] that the loop assigns, and the
    number of browser sessions opened so far. *)
Record store := Store {
  sessions : nat;
  attempts : Z;
  driver : option session
}.

Definition M (A : Type) : Type :=
  environment -> store -> completion A * store * trace.

Definition ret {A} (a : A) : M A := fun _ s => (Normal a, s, []).

Definition bind {A B} (m : M A) (k : A -> M B) : M B := fun env s =>
  match m env s with
  | (Normal a, s1, t1) =>
      match k a env s1 with
      | (c, s2, t2) => (c, s2, t1 ++ t2)
      end
  | (Abrupt x, s1, t1) => (Abrupt x, s1, t1)
  end.

Declare Scope py_scope.
Delimit Scope py_scope with py_m.
Notation "x <- m ;; k" := (bind m (fun x => k))
  (at level 61, m at next level, right associativity) : py_scope.
Notation "m ;; k" := (bind m (fun _ => k))
  (at level 61, right associativity) : py_scope.
Local Open Scope py_scope.

Definition raise {A} (e : exn) : M A := fun _ s => (Abrupt (Raise e), s, []).
Definition return_ {A} : M A := fun _ s => (Abrupt Return_, s, []).
Definition emit (e : event) : M unit := fun _ s => (Normal tt, s, [e]).

(** [str(v)], which an f-string substitutes for [v], can be computed: the
    integers of [v] can be written in decimal. *)
Fixpoint json_formattable (int_str : Z -> bool) (v : json) : bool :=
  match v with
  | JInt z => int_str z
  | JList items => forallb (json_formattable int_str) items
  | JObj fields =>
      forallb (fun kv : str * json => json_formattable int_str (snd kv))
        fields
  | JNull | JBool _ | JFloat _ | JStr _ => true
  end.

(** The text of the line can be computed. *)
Definition formattable (env : environment) (line : log) : bool :=
  match line with
  | LogUrl v | LogExpectedText v => json_formattable (int_str env) v
  | LogRetryDelay z | LogMaxAttempts z | LogWaiting z => int_str env z
  | LogAttempt a m => int_str env a && int_str env m
  | LogUnexpectedError a _ => int_str env a
  | _ => true
  end.

(** The lines whose text is ASCII whatever they carry: the text of the
    source, with numbers.  The other lines carry a text of the
    configuration (the URL, the expected text), the message of an
    exception, or the check mark (U+2705) of the success line. *)
Definition plain (line : log) : bool :=
  match line with
  | LogUrl _ | LogExpectedText _ | LogAlive | LogUnexpectedError _ _
  | LogWebDriverException _ | LogEmailFailed _ => false
  | _ => true
  end.

(** What [print(f"...")] raises for the line, if anything: [ValueError]
    when the text cannot be computed, [UnicodeEncodeError] when the
    console cannot encode it. *)
Definition print_fault_of (env : environment) (line : log) : option exn :=
  if negb (formattable env line) then Some ValueError
  else if plain line || stdout_encodes env line then None
  else Some UnicodeEncodeError.

Definition printable (env : environment) (line : log) : bool :=
  match print_fault_of env line with
  | None => true
  | Some _ => false
  end.

(** [print(...)]: the line is written, or the call raises and nothing is
    written.  (The console is taken to be open: writing to it fails in no
    other way.) *)
Definition print (line : log) : M unit := fun env s =>
  match print_fault_of env line with
  | None => (Normal tt, s, [Print line])
  | Some e => (Abrupt (Raise e), s, [])
  end.
Definition ask : M environment := fun env s => (Normal env, s, []).

Definition lift {A} (r : result A) : M A :=
  match r with
  | Ok a => ret a
  | Err e => raise e
  end.

Definition get_attempts : M Z := fun _ s => (Normal (attempts s), s, []).
Definition set_attempts (a : Z) : M unit := fun _ s =>
  (Normal tt, Store (sessions s) a (driver s), []).
Definition get_driver : M (option session) := fun _ s =>
  (Normal (driver s), s, []).
Definition set_driver (d : option session) : M unit := fun _ s =>
  (Normal tt, Store (sessions s) (attempts s) d, []).

(** The classes that an [except] clause names. *)
Definition Exception (e : exn) : bool := true.
Definition isWebDriverException (e : exn) : bool :=
  match e with
  | WebDriverException _ => true
  | _ => false
  end.

(** [try: body / except cls as e: handler e]. *)
Definition try_except {A} (body : M A) (cls : exn -> bool)
    (handler : exn -> M A) : M A :=
  fun env s =>
    match body env s with
    | (Abrupt (Raise e), s1, t1) =>
        if cls e then
          match handler e env s1 with
          | (c, s2, t2) => (c, s2, t1 ++ t2)
          end
        else (Abrupt (Raise e), s1, t1)
    | r => r
    end.

(** [try: body / finally: final]: [final] runs however [body] ends, and
    the way [final] ends replaces the way [body] ended unless [final] falls
    through. *)
Definition try_finally {A} (body : M A) (final : M unit) : M A :=
  fun env s =>
    match body env s with
    | (Abrupt Unfinished, s1, t1) => (Abrupt Unfinished, s1, t1)
    | (c, s1, t1) =>
        match final env s1 with
        | (Normal _, s2, t2) => (c, s2, t1 ++ t2)
        | (Abrupt x, s2, t2) => (Abrupt x, s2, t1 ++ t2)
        end
    end.

(** [while cond: body], with one unit of fuel for an iteration. *)
Fixpoint while_ (fuel : nat) (cond : M bool) (body : M unit) : M unit :=
  b <- cond ;;
  if b then
    match fuel with
    | O => fun _ s => (Abrupt Unfinished, s, [])
    | S fuel' => body ;; while_ fuel' cond body
    end
  else ret tt.

(** The body of a [def]: a [return] ends the call normally. *)
Definition def_ (body : M unit) : M unit := fun env s =>
  match body env s with
  | (Abrupt Return_, s1, t1) => (Normal tt, s1, t1)
  | r => r
  end.

(** ** The collaborators' calls *)

(** A call that returns nothing: the event records the answer, and the
    answer decides how the call ends. *)
Definition external (ev : option exn -> event) (r : option exn) : M unit :=
  emit (ev r) ;;
  match r with
  | None => ret tt
  | Some e => raise e
  end.

Definition chrome_options : list str :=
  [py "--headless=new"; py "--no-sandbox"; py "--disable-dev-shm-usage"].

(** [webdriver.Chrome(options=chrome_options)]. *)
Definition webdriver_Chrome (options : list str) : M session := fun env s =>
  let n := sessions s in
  let s' := Store (S n) (attempts s) (driver s) in
  match chrome_new env n with
  | None => (Normal n, s', [ChromeNew options (Ok n)])
  | Some e => (Abrupt (Raise e), s', [ChromeNew options (Err e)])
  end.

Definition driver_get (d : session) (url : json) : M unit :=
  env <- ask ;;
  external (ChromeGet d url) (chrome_get env d url).

Definition driver_page_source (d : session) : M str :=
  env <- ask ;;
  emit (ChromePageSource d (chrome_page_source env d)) ;;
  lift (chrome_page_source env d).

Definition driver_quit (d : session) : M unit :=
  env <- ask ;;
  external (ChromeQuit d) (chrome_quit env d).

(** [time.sleep(seconds)].  The interpreter keeps a length of time as a
    number of nanoseconds in 64 bits: a number of seconds beyond
    [sleep_max], on either side, raises [OverflowError].  A negative length
    raises [ValueError].  Any other length is handed to the clock of the
    platform, which may still refuse it. *)
Definition sleep_max : Z := 9223372036.

Definition sleep_refusal (env : environment) (seconds : Z) : option exn :=
  if (seconds <? - sleep_max) || (sleep_max <? seconds) then
    Some OverflowError
  else if seconds <? 0 then Some ValueError
  else clock_sleep env seconds.

Definition time_sleep (seconds : Z) : M unit := fun env s =>
  match sleep_refusal env seconds with
  | Some e => (Abrupt (Raise e), s, [])
  | None => (Normal tt, s, [Sleep seconds])
  end.

(** [with smtplib.SMTP(host, port) as server: body]: the constructor
    connects; once connected, leaving the block closes the session
    however the block ends. *)
Definition with_smtplib_SMTP (host port : json) (body : M unit) : M unit :=
  env <- ask ;;
  external (SmtpConnect host port) (smtp_connect env host port) ;;
  try_finally body (external SmtpExit (smtp_exit env)).

Definition server_ehlo : M unit :=
  env <- ask ;; external SmtpEhlo (smtp_ehlo env).
Definition server_starttls : M unit :=
  env <- ask ;; external SmtpStartTls (smtp_starttls env).
Definition server_login (username password : json) : M unit :=
  env <- ask ;;
  external (SmtpLogin username password) (smtp_login env username password).
Definition server_send_message (msg : message) : M unit :=
  env <- ask ;;
  external (SmtpSendMessage msg) (smtp_send_message env msg).

(** The body of the message: the f-string computes its text from the URL
    and the expected text, and [MIMEText(body, "plain", "utf-8")] encodes
    it. *)
Definition MIMEText (url expected_text : json) : M unit :=
  env <- ask ;;
  if negb (json_formattable (int_str env) url
           && json_formattable (int_str env) expected_text)
  then raise ValueError
  else if format_encodable url && format_encodable expected_text then ret tt
  else raise UnicodeEncodeError.

Definition int (v : json) : M Z :=
  env <- ask ;; lift (py_int (int_of_str env) v).

(** ** The program *)

Definition create_default_config_dict : json :=
  JObj
    [ (py "url", JStr (py "https://londublis.com/"));
      (py "expected_text", JStr (py "I'm alive"));
      (py "retry_delay_seconds", JInt 60);
      (py "max_attempts", JInt 2);
      (py "email",
        JObj
          [ (py "enabled", JBool false);
            (py "smtp_host", JStr (py "mail.londublis.com"));
            (py "smtp_port", JInt 25);
            (py "smtp_username", JStr (py "your@londublis.com"));
            (py "smtp_password", JStr (py "your_password"));
            (py "from", JStr (py "your@londublis.com"));
            (py "to", JList [JStr (py "dest1@email.com")]);
            (py "subject", JStr (py "Vacation bot on Render is DOWN")) ]) ].

Definition create_webdriver : M session :=
  webdriver_Chrome chrome_options.

Definition is_app_alive (driver : session) (url expected_text : json)
  : M bool :=
  emit (CallIsAppAlive driver url expected_text) ;;
  alive <-
    try_except
      (driver_get driver url ;;
       page_source <- driver_page_source driver ;;
       lift (py_in expected_text page_source))
      isWebDriverException
      (fun e =>
         print (LogWebDriverException e) ;;
         ret false) ;;
  emit (ReturnIsAppAlive alive) ;;
  ret alive.

Definition send_alert_email (email_config url expected_text : json)
  : M unit :=
  def_ (
    emit (CallSendAlertEmail email_config url expected_text) ;;
    enabled <- lift (py_get email_config (py "enabled") (JBool false)) ;;
    (if negb (truthy enabled) then
       print LogEmailDisabled ;;
       return_
     else ret tt) ;;
    smtp_host <- lift (py_getitem email_config (py "smtp_host")) ;;
    smtp_port <- lift (py_getitem email_config (py "smtp_port")) ;;
    smtp_username <- lift (py_getitem email_config (py "smtp_username")) ;;
    smtp_password <- lift (py_getitem email_config (py "smtp_password")) ;;
    email_from <- lift (py_getitem email_config (py "from")) ;;
    email_to <- lift (py_getitem email_config (py "to")) ;;
    subject <- lift (py_get email_config (py "subject")
                       (JStr (py "Application is DOWN"))) ;;
    to_header <- lift (py_join (py ", ") email_to) ;;
    MIMEText url expected_text ;;
    let msg := Message email_from to_header subject url expected_text in
    try_except
      (with_smtplib_SMTP smtp_host smtp_port
         (server_ehlo ;;
          server_starttls ;;
          server_login smtp_username smtp_password ;;
          server_send_message msg) ;;
       print LogEmailSent)
      Exception
      (fun e => print (LogEmailFailed e))).

Definition run_single_check (config : json) : M unit :=
  def_ (
    url <- lift (py_getitem config (py "url")) ;;
    expected_text <- lift (py_getitem config (py "expected_text")) ;;
    retry_delay_seconds <-
      (v <- lift (py_get config (py "retry_delay_seconds") (JInt 60)) ;;
       int v) ;;
    max_attempts <-
      (v <- lift (py_get config (py "max_attempts") (JInt 2)) ;; int v) ;;
    email_config <- lift (py_get config (py "email") (JObj [])) ;;
    print LogStarting ;;
    print (LogUrl url) ;;
    print (LogExpectedText expected_text) ;;
    print (LogRetryDelay retry_delay_seconds) ;;
    print (LogMaxAttempts max_attempts) ;;
    set_attempts 0 ;;
    while_ (Z.to_nat max_attempts)
      (a <- get_attempts ;; ret (a <? max_attempts))
      (a <- get_attempts ;;
       set_attempts (a + 1) ;;
       set_driver None ;;
       try_finally
         (try_except
            (d <- create_webdriver ;;
             set_driver (Some d) ;;
             a <- get_attempts ;;
             print (LogAttempt a max_attempts) ;;
             alive <- is_app_alive d url expected_text ;;
             (if alive then
                print LogAlive ;;
                return_
              else ret tt) ;;
             print LogNotAlive)
            Exception
            (fun e =>
               a <- get_attempts ;;
               print (LogUnexpectedError a e)))
         (d <- get_driver ;;
          match d with
          | Some d => try_except (driver_quit d) Exception (fun _ => ret tt)
          | None => ret tt
          end) ;;
       a <- get_attempts ;;
       if a <? max_attempts then
         print (LogWaiting retry_delay_seconds) ;;
         time_sleep retry_delay_seconds
       else ret tt) ;;
    print LogStillDown ;;
    send_alert_email email_config url expected_text).

(** ** Scenarios *)

Definition no_int_of_str : str -> option Z := fun _ => None.

(** An interpreter that writes every integer, a console that encodes
    every line, and a clock that accepts every length it is handed. *)
Definition any_number : Z -> bool := fun _ => true.
Definition any_line : log -> bool := fun _ => true.
Definition any_length : Z -> option exn := fun _ => None.

(** A world where every page shows [page] and the mail server accepts. *)
Definition calm (page : str) : environment :=
  Environment no_int_of_str
    (fun _ => None) (fun _ _ => None) (fun _ => Ok page) (fun _ => None)
    (fun _ _ => None) None None (fun _ _ => None) (fun _ => None) None
    any_number any_line any_length.

Definition store0 : store := Store 0 0 None.

(** ** Reading the configuration *)

(** The five values [run_single_check] reads before it prints anything. *)
Record settings := Settings {
  st_url : json;
  st_expected_text : json;
  st_retry_delay_seconds : Z;
  st_max_attempts : Z;
  st_email_config : json
}.

Definition bind_result {A B} (r : result A) (k : A -> result B) : result B :=
  match r with
  | Ok a => k a
  | Err e => Err e
  end.

Definition read_config (env : environment) (config : json) : result settings :=
  bind_result (py_getitem config (py "url")) (fun url =>
  bind_result (py_getitem config (py "expected_text")) (fun expected_text =>
  bind_result (py_get config (py "retry_delay_seconds") (JInt 60)) (fun v =>
  bind_result (py_int (int_of_str env) v) (fun retry_delay_seconds =>
  bind_result (py_get config (py "max_attempts") (JInt 2)) (fun v =>
  bind_result (py_int (int_of_str env) v) (fun max_attempts =>
  bind_result (py_get config (py "email") (JObj [])) (fun email_config =>
  Ok (Settings url expected_text retry_delay_seconds max_attempts
        email_config)))))))).

(** The parts of [run_single_check], named for the proofs. *)
Definition loop_cond (max_attempts : Z) : M bool :=
  a <- get_attempts ;; ret (a <? max_attempts).

Definition loop_body (url expected_text : json)
    (retry_delay_seconds max_attempts : Z) : M unit :=
  a <- get_attempts ;;
  set_attempts (a + 1) ;;
  set_driver None ;;
  try_finally
    (try_except
       (d <- create_webdriver ;;
        set_driver (Some d) ;;
        a <- get_attempts ;;
        print (LogAttempt a max_attempts) ;;
        alive <- is_app_alive d url expected_text ;;
        (if alive then
           print LogAlive ;;
           return_
         else ret tt) ;;
        print LogNotAlive)
       Exception
       (fun e =>
          a <- get_attempts ;;
          print (LogUnexpectedError a e)))
    (d <- get_driver ;;
     match d with
     | Some d => try_except (driver_quit d) Exception (fun _ => ret tt)
     | None => ret tt
     end) ;;
  a <- get_attempts ;;
  if a <? max_attempts then
    print (LogWaiting retry_delay_seconds) ;;
    time_sleep retry_delay_seconds
  else ret tt.

Definition preamble (st : settings) : trace :=
  [ Print LogStarting;
    Print (LogUrl (st_url st));
    Print (LogExpectedText (st_expected_text st));
    Print (LogRetryDelay (st_retry_delay_seconds st));
    Print (LogMaxAttempts (st_max_attempts st)) ].

Definition check_with (st : settings) : M unit :=
  def_ (
    print LogStarting ;;
    print (LogUrl (st_url st)) ;;
    print (LogExpectedText (st_expected_text st)) ;;
    print (LogRetryDelay (st_retry_delay_seconds st)) ;;
    print (LogMaxAttempts (st_max_attempts st)) ;;
    set_attempts 0 ;;
    while_ (Z.to_nat (st_max_attempts st))
      (loop_cond (st_max_attempts st))
      (loop_body (st_url st) (st_expected_text st)
         (st_retry_delay_seconds st) (st_max_attempts st)) ;;
    print LogStillDown ;;
    send_alert_email (st_email_config st) (st_url st) (st_expected_text st)).

Definition outcome {A} (r : completion A * store * trace) : completion A :=
  fst (fst r).
Definition final_store {A} (r : completion A * store * trace) : store :=
  snd (fst r).
Definition trace_of {A} (r : completion A * store * trace) : trace :=
  snd r.

Lemma run_single_check_reads env config s :
  run_single_check config env s =
  match read_config env config with
  | Ok st => check_with st env s
  | Err e => (Abrupt (Raise e), s, [])
  end.
Proof.
  unfold run_single_check, read_config, check_with, int.
  unfold def_, bind, lift, ask, bind_result, ret, raise.
  destruct (py_getitem config (py "url")); simpl; [|reflexivity].
  destruct (py_getitem config (py "expected_text")); simpl; [|reflexivity].
  destruct (py_get config (py "retry_delay_seconds") (JInt 60)) as [v|];
    simpl; [|reflexivity].
  destruct (py_int (int_of_str env) v); simpl; [|reflexivity].
  destruct (py_get config (py "max_attempts") (JInt 2)) as [w|];
    simpl; [|reflexivity].
  destruct (py_int (int_of_str env) w); simpl; [|reflexivity].
  destruct (py_get config (py "email") (JObj [])); simpl; [|reflexivity].
  unfold print.
  destruct (print_fault_of env (LogUrl _)); simpl; [reflexivity|].
  destruct (print_fault_of env (LogExpectedText _)); simpl; [reflexivity|].
  destruct (print_fault_of env (LogRetryDelay _)); simpl; [reflexivity|].
  destruct (print_fault_of env (LogMaxAttempts _)); simpl; [reflexivity|].
  destruct (while_ _ _ _ _ _) as [[[?|?] ?] ?]; [|reflexivity].
  destruct (send_alert_email _ _ _ _ _) as [[[?|[]] ?] ?]; reflexivity.
Qed.

(** ** Reading a trace *)

Definition count (p : event -> bool) (t : trace) : nat :=
  List.length (filter p t).

Definition is_notify (e : event) : bool :=
  match e with CallSendAlertEmail _ _ _ => true | _ => false end.
Definition is_check (e : event) : bool :=
  match e with CallIsAppAlive _ _ _ => true | _ => false end.
Definition is_alive (e : event) : bool :=
  match e with ReturnIsAppAlive true => true | _ => false end.
Definition is_attempt (e : event) : bool :=
  match e with ChromeNew _ _ => true | _ => false end.
Definition is_open (d : session) (e : event) : bool :=
  match e with ChromeNew _ (Ok d') => Nat.eqb d d' | _ => false end.
Definition is_quit (d : session) (e : event) : bool :=
  match e with ChromeQuit d' _ => Nat.eqb d d' | _ => false end.
Definition is_pause (e : event) : bool :=
  match e with Sleep _ => true | _ => false end.
Definition is_smtp (e : event) : bool :=
  match e with
  | SmtpConnect _ _ _ | SmtpEhlo _ | SmtpStartTls _ | SmtpLogin _ _ _
  | SmtpSendMessage _ _ | SmtpExit _ => true
  | _ => false
  end.
Definition is_print (e : event) : bool :=
  match e with Print _ => true | _ => false end.

(** The attempts and the pauses of a run, in order. *)
Inductive beat :=
| Attempt
| Pause (seconds : Z).

Fixpoint timeline (t : trace) : list beat :=
  match t with
  | [] => []
  | ChromeNew _ _ :: t' => Attempt :: timeline t'
  | Sleep d :: t' => Pause d :: timeline t'
  | _ :: t' => timeline t'
  end.

(** What follows the first return of "alive" by [is_app_alive] (nothing
    when there is none). *)
Fixpoint after_alive (t : trace) : trace :=
  match t with
  | [] => []
  | e :: t' => if is_alive e then t' else after_alive t'
  end.

(** Neither an attempt, nor a check, nor a pause, nor an alert. *)
Definition idle (e : event) : bool :=
  negb (is_attempt e || is_check e || is_pause e || is_notify e).

(** The page of session [d] shows the expected text. *)
Definition page_shows (env : environment) (d : session)
    (url expected_text : json) : bool :=
  match chrome_get env d url, chrome_page_source env d, expected_text with
  | None, Ok page_source, JStr s => str_contains s page_source
  | _, _, _ => false
  end.

(** The browser gives a session for the attempt. *)
Definition opened (env : environment) (n : session) : bool :=
  match chrome_new env n with
  | None => true
  | Some _ => false
  end.

(** What the attempt on session [n] yields: the session opens and its page
    shows the expected text.  Everything else is "not alive" or "errored". *)
Definition attempt_alive (env : environment) (url expected_text : json)
    (n : session) : bool :=
  opened env n && page_shows env n url expected_text.

(** The lines that a run may print, whatever the exception in those that
    report one: the URL, the expected text, the delay and the number of
    attempts are those of the run, and the attempts are counted from 1 to
    [max_attempts]. *)
Definition run_line (url expected_text : json)
    (retry_delay_seconds max_attempts : Z) (line : log) : Prop :=
  match line with
  | LogUrl v => v = url
  | LogExpectedText v => v = expected_text
  | LogRetryDelay z | LogWaiting z => z = retry_delay_seconds
  | LogMaxAttempts z => z = max_attempts
  | LogAttempt a m => 1 <= a <= max_attempts /\ m = max_attempts
  | LogUnexpectedError a _ => 1 <= a <= max_attempts
  | _ => True
  end.

(** [print] writes every line of the run: the interpreter can write its
    numbers and the console can encode its text. *)
Definition lines_print (env : environment) (url expected_text : json)
    (retry_delay_seconds max_attempts : Z) : Prop :=
  forall line,
    run_line url expected_text retry_delay_seconds max_attempts line ->
    print_fault_of env line = None.

Definition console_prints (env : environment) (st : settings) : Prop :=
  lines_print env (st_url st) (st_expected_text st)
    (st_retry_delay_seconds st) (st_max_attempts st).



(** ** Traces are read piecewise *)

Lemma count_app p t1 t2 : count p (t1 ++ t2) = (count p t1 + count p t2)%nat.
Proof. unfold count. now rewrite filter_app, length_app. Qed.

Lemma count_cons p e t :
  count p (e :: t) = ((if p e then 1 else 0) + count p t)%nat.
Proof. unfold count. simpl. now destruct (p e). Qed.

Lemma count_nil p : count p [] = 0%nat.
Proof. reflexivity. Qed.

Lemma timeline_app t1 t2 : timeline (t1 ++ t2) = timeline t1 ++ timeline t2.
Proof.
  induction t1 as [|e t1 IH]; simpl; [reflexivity|].
  destruct e; simpl; now rewrite ?IH.
Qed.

Lemma after_alive_app t1 t2 :
  after_alive (t1 ++ t2) =
  if existsb is_alive t1 then after_alive t1 ++ t2 else after_alive t2.
Proof.
  induction t1 as [|e t1 IH]; simpl; [reflexivity|].
  destruct (is_alive e); simpl; [reflexivity|exact IH].
Qed.

Lemma after_alive_none t : existsb is_alive t = false -> after_alive t = [].
Proof.
  induction t as [|e t IH]; simpl; [reflexivity|].
  destruct (is_alive e); simpl; [discriminate|exact IH].
Qed.



(** Printed lines are no requests. *)
Lemma count_prints p t :
  (forall l, p (Print l) = false) ->
  forallb is_print t = true -> count p t = 0%nat.
Proof.
  intros Hp. induction t as [|e t IH]; [reflexivity|].
  cbn [forallb]. intros H. apply andb_prop in H as [He Ht].
  destruct e; try discriminate. rewrite count_cons, Hp. now apply IH.
Qed.

Ltac read_trace :=
  repeat progress
    (rewrite ?count_app, ?count_cons, ?count_nil, ?timeline_app,
       ?existsb_app, ?forallb_app, ?after_alive_app;
     cbn [timeline existsb forallb after_alive app is_alive is_check
          is_attempt is_pause is_notify is_smtp is_open is_quit idle
          negb orb andb Nat.add]).

(** ** One page check *)

(** The events of a page check: its call first, and the return of
    "alive", if any, last. *)
Record check_trace (t : trace) (alive : bool) : Prop := {
  ct_check : count is_check t = 1%nat;
  ct_notify : count is_notify t = 0%nat;
  ct_smtp : count is_smtp t = 0%nat;
  ct_attempt : count is_attempt t = 0%nat;
  ct_open : forall d, count (is_open d) t = 0%nat;
  ct_quit : forall d, count (is_quit d) t = 0%nat;
  ct_timeline : timeline t = [];
  ct_alive : existsb is_alive t = alive;
  ct_after : after_alive t = []
}.

Ltac unfold_m :=
  unfold driver_get, driver_page_source, driver_quit, time_sleep, external,
    try_finally, try_except, bind, ret, raise, return_, emit, print, ask,
    lift, get_attempts, set_attempts, get_driver, set_driver, def_.

Arguments print_fault_of : simpl never.

(** Asks whether a line is printed, for every line that can fail to be. *)
Ltac ask_console env :=
  repeat match goal with
  | |- context [print_fault_of env ?l] =>
      first [ change (print_fault_of env l) with (@None exn)
            | destruct (print_fault_of env l) as [?|] eqn:? ];
      cbn
  end.

(** [is_app_alive] returns what the page shows, or raises; it never finds
    alive a page that does not show the expected text. *)
Lemma is_app_alive_run env d url expected_text s :
  exists c t,
    is_app_alive d url expected_text env s = (c, s, t) /\
    (c = Normal (page_shows env d url expected_text) \/
     page_shows env d url expected_text = false /\
     exists e, c = Abrupt (Raise e)) /\
    check_trace t (page_shows env d url expected_text).
Proof.
  unfold is_app_alive, page_shows, py_in. unfold_m.
  destruct (chrome_get env d url) as [e|]; cbn.
  - destruct (isWebDriverException e); cbn; ask_console env;
      eexists; eexists; (split; [reflexivity|]);
      (split; [eauto|]); constructor; reflexivity.
  - destruct (chrome_page_source env d) as [page|e]; cbn.
    + destruct expected_text; cbn;
        eexists; eexists; (split; [reflexivity|]);
        (split; [eauto|]); constructor; try reflexivity;
        cbn; now destruct (str_contains _ _).
    + destruct (isWebDriverException e); cbn; ask_console env;
        eexists; eexists; (split; [reflexivity|]);
        (split; [eauto|]); constructor; reflexivity.
Qed.

(** ** One attempt *)

(** What an attempt on session [n] asks, whatever the console and the
    clock do: [has_session] tells whether the browser gave the session,
    [checked] whether the page check was called. *)
Record attempt_counts (n : session) (has_session checked : bool) (t : trace)
  : Prop := {
  ac_notify : count is_notify t = 0%nat;
  ac_smtp : count is_smtp t = 0%nat;
  ac_attempt : count is_attempt t = 1%nat;
  ac_check : count is_check t = if checked then 1%nat else 0%nat;
  ac_open : forall d,
    count (is_open d) t =
    if has_session && Nat.eqb d n then 1%nat else 0%nat;
  ac_quit : forall d,
    count (is_quit d) t =
    if has_session && Nat.eqb d n then 1%nat else 0%nat
}.


Section Attempt.
Variables (env : environment) (url expected_text : json).
Variables (retry_delay_seconds max_attempts : Z).

Let body := loop_body url expected_text retry_delay_seconds max_attempts.

(** Whatever the console can print and the clock accepts: the attempt
    asks for one session, checks the page if it got the session and could
    announce the attempt, and quits the session it got. *)
Lemma loop_body_any n a dr :
  let announced := printable env (LogAttempt (a + 1) max_attempts) in
  exists c s' t,
    body env (Store n a dr) = (c, s', t) /\
    sessions s' = S n /\
    attempts s' = a + 1 /\
    c <> Abrupt Unfinished /\
    attempt_counts n (opened env n) (opened env n && announced) t /\
    existsb is_alive t =
      announced && attempt_alive env url expected_text n /\
    (printable env LogAlive = true ->
     forallb idle (after_alive t) = true /\
     (existsb is_alive t = true -> c = Abrupt Return_)).
Proof.
  subst body.
  unfold loop_body, create_webdriver, webdriver_Chrome, attempt_alive,
    opened, printable.
  unfold_m. cbn [sessions attempts driver].
  destruct (chrome_new env n) as [e|]; cbn -[is_app_alive].
  - ask_console env;
      destruct (a + 1 <? max_attempts); cbn;
      ask_console env;
      try destruct (sleep_refusal env retry_delay_seconds); cbn;
      destruct (print_fault_of env (LogAttempt (a + 1) max_attempts));
      eexists; eexists; eexists; (split; [reflexivity|]);
      (split; [reflexivity|]); (split; [reflexivity|]);
      (split; [discriminate|]);
      (split; [constructor; reflexivity|]);
      (split; [reflexivity|]);
      intros _; (split; [reflexivity|discriminate]).
  - destruct (print_fault_of env (LogAttempt (a + 1) max_attempts))
      as [f|] eqn:Hannounce; cbn -[is_app_alive].
    + ask_console env;
        destruct (chrome_quit env n); cbn;
        destruct (a + 1 <? max_attempts); cbn;
        ask_console env;
        try destruct (sleep_refusal env retry_delay_seconds); cbn;
        eexists; eexists; eexists; (split; [reflexivity|]);
        (split; [reflexivity|]); (split; [reflexivity|]);
        (split; [discriminate|]);
        (split;
         [constructor; intros; read_trace; try reflexivity;
          destruct (Nat.eqb _ _); reflexivity|]);
        (split; [reflexivity|]);
        intros _; (split; [reflexivity|discriminate]).
    + destruct (is_app_alive_run env n url expected_text
                  (Store (S n) (a + 1) (@Some session n)))
        as (c & t & Heq & Hc & [H1 H2 H3 H4 H5 H6 H7 H8 H9]).
      rewrite Heq.
      destruct Hc as [->|[Hs [e ->]]];
        [|rewrite Hs in *];
        destruct (page_shows env n url expected_text);
        try discriminate; cbn;
        ask_console env;
        destruct (chrome_quit env n); cbn;
        destruct (a + 1 <? max_attempts); cbn;
        ask_console env;
        try destruct (sleep_refusal env retry_delay_seconds); cbn;
        eexists; eexists; eexists; (split; [reflexivity|]);
        (split; [reflexivity|]); (split; [reflexivity|]);
        (split; [discriminate|]).
      all: split;
        [constructor; intros; read_trace;
         rewrite ?H1, ?H2, ?H3, ?H4, ?H5, ?H6; read_trace;
         try reflexivity; destruct (Nat.eqb _ _); reflexivity|].
      all: split; [read_trace; rewrite ?H8; read_trace; reflexivity|].
      all: intros Hsaid; try discriminate Hsaid;
        read_trace; rewrite ?H8, ?H9; read_trace;
        (split; [reflexivity|]); intros; (reflexivity || discriminate).
Qed.

Hypothesis console :
  lines_print env url expected_text retry_delay_seconds max_attempts.

End Attempt.

Lemma body_store_attempts url expected_text retry_delay_seconds max_attempts
    env s :
  attempts
    (final_store
       (loop_body url expected_text retry_delay_seconds max_attempts env s)) =
  attempts s + 1.
Proof.
  destruct s as [n a dr].
  destruct (loop_body_any env url expected_text retry_delay_seconds
              max_attempts n a dr) as (c & s' & t & -> & _ & Ha & _).
  exact Ha.
Qed.

(** ** The loop *)

(** [body] run [r] times in a row, unless it ends abruptly before. *)
Fixpoint rounds (body : M unit) (r : nat) : M unit :=
  match r with
  | O => ret tt
  | S r' => body ;; rounds body r'
  end.

(** A loop that counts [attempts] up to [max_attempts] runs its body
    [max_attempts - attempts] times, whatever the fuel beyond that. *)
Lemma while_rounds (body : M unit) (max_attempts : Z) :
  (forall env s, attempts (final_store (body env s)) = attempts s + 1) ->
  forall fuel env s,
    (Z.to_nat (max_attempts - attempts s) <= fuel)%nat ->
    while_ fuel (loop_cond max_attempts) body env s =
    rounds body (Z.to_nat (max_attempts - attempts s)) env s.
Proof.
  intros Hbody fuel. induction fuel as [|fuel IH]; intros env s Hfuel.
  - assert (Hr : Z.to_nat (max_attempts - attempts s) = 0%nat) by lia.
    rewrite Hr. cbn. unfold loop_cond, bind, get_attempts, ret.
    destruct (Z.ltb_spec (attempts s) max_attempts); [lia|reflexivity].
  - cbn [while_]. unfold loop_cond at 1.
    unfold bind at 1 2, get_attempts, ret at 1.
    destruct (Z.ltb_spec (attempts s) max_attempts) as [Hlt|Hge].
    + destruct (Z.to_nat (max_attempts - attempts s)) as [|r] eqn:Hr;
        [lia|].
      cbn [rounds]. unfold bind.
      specialize (Hbody env s).
      destruct (body env s) as [[[[]|x] s1] t1]; cbn in *; [|reflexivity].
      rewrite IH by (rewrite Hbody; lia).
      replace (Z.to_nat (max_attempts - attempts s1)) with r
        by (rewrite Hbody; lia).
      now destruct (rounds body r env s1) as [[? ?] ?].
    + replace (Z.to_nat (max_attempts - attempts s)) with 0%nat by lia.
      reflexivity.
Qed.

(** Fuel beyond the number of iterations changes nothing. *)
Lemma while_fuel_irrelevant (body : M unit) (max_attempts : Z) :
  (forall env s, attempts (final_store (body env s)) = attempts s + 1) ->
  forall fuel fuel' env s,
    (Z.to_nat (max_attempts - attempts s) <= fuel)%nat ->
    (Z.to_nat (max_attempts - attempts s) <= fuel')%nat ->
    while_ fuel (loop_cond max_attempts) body env s =
    while_ fuel' (loop_cond max_attempts) body env s.
Proof.
  intros Hbody fuel fuel' env s H H'.
  now rewrite !(while_rounds body max_attempts Hbody) by assumption.
Qed.

(** The loop of a run is its body, [max_attempts] times. *)
Lemma loop_rounds url expected_text retry_delay_seconds max_attempts env s :
  while_ (Z.to_nat max_attempts) (loop_cond max_attempts)
    (loop_body url expected_text retry_delay_seconds max_attempts) env
    (Store (sessions s) 0 (driver s)) =
  rounds (loop_body url expected_text retry_delay_seconds max_attempts)
    (Z.to_nat max_attempts) env (Store (sessions s) 0 (driver s)).
Proof.
  rewrite while_rounds
    by (try (intros; apply body_store_attempts); cbn; lia).
  cbn [attempts]. now rewrite Z.sub_0_r.
Qed.

(** The attempts on sessions [n], [n+1], ... find the page alive within
    [r] attempts. *)
Definition alive_within (env : environment) (url expected_text : json)
    (n : session) (r : nat) : bool :=
  existsb (attempt_alive env url expected_text) (seq n r).







Section Loop.
Variables (env : environment) (url expected_text : json).
Variables (retry_delay_seconds max_attempts : Z).
Hypothesis console :
  lines_print env url expected_text retry_delay_seconds max_attempts.
Hypothesis delay_ok : sleep_refusal env retry_delay_seconds = None.

Let body := loop_body url expected_text retry_delay_seconds max_attempts.

End Loop.

(** Whatever the console and the pause do, a session that was opened is
    closed once, and no session is opened twice. *)
Section Sessions.
Variables (env : environment) (url expected_text : json).
Variables (retry_delay_seconds max_attempts : Z).

Let body := loop_body url expected_text retry_delay_seconds max_attempts.

Lemma rounds_sessions r :
  forall n a dr d,
    let t := trace_of (rounds body r env (Store n a dr)) in
    count (is_quit d) t = count (is_open d) t /\
    (count (is_open d) t <= 1)%nat /\
    ((d < n)%nat -> count (is_open d) t = 0%nat).
Proof.
  induction r as [|r IH]; intros n a dr d; cbn zeta.
  - cbn. lia.
  - destruct (loop_body_any env url expected_text retry_delay_seconds
                max_attempts n a dr)
      as (c & s1 & t1 & Heq & Hs & Ha & _ & [B1 B2 B3 B4 B5 B6] & _).
    fold body in Heq. cbn [rounds]. unfold bind. rewrite Heq.
    specialize (B5 d). specialize (B6 d).
    assert (Hhere : (count (is_open d) t1 <= 1)%nat /\
                    ((d < n)%nat -> count (is_open d) t1 = 0%nat) /\
                    ((n < d)%nat -> count (is_open d) t1 = 0%nat)).
    { rewrite B5. destruct (opened env n); cbn [andb]; [|lia].
      destruct (Nat.eqb_spec d n); lia. }
    destruct c as [[]|x]; cbn [trace_of snd]; [|lia].
    destruct s1 as [n1 a1 d1]. cbn in Hs, Ha. subst n1 a1.
    specialize (IH (S n) (a + 1) d1 d). cbn zeta in IH.
    destruct (rounds body r env (Store (S n) (a + 1) d1))
      as [[c2 s2] t2]. cbn [trace_of snd] in *.
    rewrite !count_app.
    destruct (Nat.lt_ge_cases n d) as [Hnd|Hnd].
    + assert (count (is_open d) t1 = 0%nat) by lia. lia.
    + assert (count (is_open d) t2 = 0%nat) by (apply IH; lia). lia.
Qed.

(** The page is checked at most once in an attempt, and the loop ends. *)
Lemma rounds_checks r :
  forall n a dr,
    let run := rounds body r env (Store n a dr) in
    (count is_check (trace_of run) <= r)%nat /\
    (count is_attempt (trace_of run) <= r)%nat /\
    count is_notify (trace_of run) = 0%nat /\
    count is_smtp (trace_of run) = 0%nat /\
    outcome run <> Abrupt Unfinished /\
    (printable env LogAlive = true ->
     forallb idle (after_alive (trace_of run)) = true /\
     (existsb is_alive (trace_of run) = true ->
      outcome run = Abrupt Return_)).
Proof.
  induction r as [|r IH]; intros n a dr; cbn zeta.
  - cbn. repeat split; try lia; discriminate.
  - destruct (loop_body_any env url expected_text retry_delay_seconds
                max_attempts n a dr)
      as (c & s1 & t1 & Heq & Hs & Ha & Hfin & [B1 B2 B3 B4 B5 B6] & _ & Hsaid).
    fold body in Heq. cbn [rounds]. unfold bind. rewrite Heq.
    assert (Hc1 : (count is_check t1 <= 1)%nat)
      by (rewrite B4; destruct (_ && _); lia).
    destruct c as [[]|x].
    + specialize (IH (sessions s1) (attempts s1) (driver s1)).
      cbn zeta in IH. destruct s1 as [n1 a1 d1].
      cbn [sessions attempts driver] in IH.
      destruct (rounds body r env (Store n1 a1 d1)) as [[c2 s2] t2].
      cbn [trace_of outcome fst snd] in *.
      destruct IH as (I1 & I2 & I3 & I4 & I5 & I6).
      read_trace. rewrite B1, B2, I3, I4.
      repeat split; auto; try lia.
      * destruct (Hsaid H) as (S1 & S2). destruct (I6 H) as (J1 & J2).
        destruct (existsb is_alive t1); [|exact J1].
        now specialize (S2 eq_refl).
      * destruct (Hsaid H) as (S1 & S2).
        destruct (existsb is_alive t1); [now specialize (S2 eq_refl)|].
        now apply I6.
    + cbn [trace_of outcome fst snd].
      repeat split; auto; try lia; now apply Hsaid.
Qed.
End Sessions.

(** ** The alert *)

(** What [send_alert_email] has in hand when it opens the SMTP session. *)
Record mail := Mail {
  mail_host : json;
  mail_port : json;
  mail_username : json;
  mail_password : json;
  mail_message : message
}.

(** Composition: the settings read from [email_config] and the message
    built from them, or the exception that one of these steps raises. *)
Definition compose (env : environment) (email_config url expected_text : json)
  : result mail :=
  bind_result (py_getitem email_config (py "smtp_host")) (fun smtp_host =>
  bind_result (py_getitem email_config (py "smtp_port")) (fun smtp_port =>
  bind_result (py_getitem email_config (py "smtp_username"))
    (fun smtp_username =>
  bind_result (py_getitem email_config (py "smtp_password"))
    (fun smtp_password =>
  bind_result (py_getitem email_config (py "from")) (fun email_from =>
  bind_result (py_getitem email_config (py "to")) (fun email_to =>
  bind_result (py_get email_config (py "subject")
                 (JStr (py "Application is DOWN"))) (fun subject =>
  bind_result (py_join (py ", ") email_to) (fun to_header =>
  if negb (json_formattable (int_str env) url
           && json_formattable (int_str env) expected_text)
  then Err ValueError
  else if format_encodable url && format_encodable expected_text then
    Ok (Mail smtp_host smtp_port smtp_username smtp_password
          (Message email_from to_header subject url expected_text))
  else Err UnicodeEncodeError)))))))).

(** Delivery: the guarded block of [send_alert_email]. *)
Definition deliver (m : mail) : M unit :=
  try_except
    (with_smtplib_SMTP (mail_host m) (mail_port m)
       (server_ehlo ;;
        server_starttls ;;
        server_login (mail_username m) (mail_password m) ;;
        server_send_message (mail_message m)) ;;
     print LogEmailSent)
    Exception
    (fun e => print (LogEmailFailed e)).

(** The server accepts every step of the delivery of [m]. *)
Definition smtp_accepts (env : environment) (m : mail) : bool :=
  match smtp_connect env (mail_host m) (mail_port m), smtp_ehlo env,
        smtp_starttls env,
        smtp_login env (mail_username m) (mail_password m),
        smtp_send_message env (mail_message m), smtp_exit env with
  | None, None, None, None, None, None => true
  | _, _, _, _, _, _ => false
  end.

Definition enabled_of (email_config : json) : result bool :=
  bind_result (py_get email_config (py "enabled") (JBool false))
    (fun enabled => Ok (truthy enabled)).

Lemma send_alert_email_steps email_config url expected_text env s :
  send_alert_email email_config url expected_text env s =
  let call := CallSendAlertEmail email_config url expected_text in
  match enabled_of email_config with
  | Err e => (Abrupt (Raise e), s, [call])
  | Ok false => (Normal tt, s, [call; Print LogEmailDisabled])
  | Ok true =>
      match compose env email_config url expected_text with
      | Err e => (Abrupt (Raise e), s, [call])
      | Ok m =>
          match deliver m env s with
          | (Abrupt Return_, s', t) => (Normal tt, s', call :: t)
          | (c, s', t) => (c, s', call :: t)
          end
      end
  end.
Proof.
  unfold send_alert_email, enabled_of, compose, deliver, MIMEText.
  unfold def_, bind, lift, ask, bind_result, ret, raise, emit, return_.
  destruct (py_get email_config (py "enabled") (JBool false)) as [v|];
    cbn -[py]; [|reflexivity].
  destruct (truthy v); cbn -[py]; [|reflexivity].
  repeat match goal with
  | |- context [match py_getitem email_config ?k with _ => _ end] =>
      destruct (py_getitem email_config k); cbn -[py]; [|reflexivity]
  end.
  destruct (py_get email_config (py "subject") _); cbn -[py]; [|reflexivity].
  destruct (py_join _ _); cbn -[py]; [|reflexivity].
  destruct (json_formattable (int_str env) url
            && json_formattable (int_str env) expected_text);
    cbn -[py]; [|reflexivity].
  destruct (format_encodable url && format_encodable expected_text);
    cbn -[py]; [|reflexivity].
  match goal with
  | |- context [try_except ?b ?c ?h env s] =>
      destruct (try_except b c h env s) as [[[[]|[]] ?] ?]
  end; reflexivity.
Qed.

(** Printed lines and SMTP calls. *)
Definition mailing (e : event) : bool :=
  match e with
  | Print _ => true
  | _ => is_smtp e
  end.

(** The delivery ends by one report: that the message was sent, or the
    failure.  If the console cannot print the report of the failure,
    [print] raises in the handler. *)
Ltac report :=
  match goal with
  | |- context [stdout_encodes ?env (LogEmailFailed ?x)] =>
      exists (LogEmailFailed x); cbn;
      destruct (stdout_encodes env (LogEmailFailed x)); cbn;
      (refine (conj _ (conj _ eq_refl)); [reflexivity|eauto])
  end.

Lemma deliver_run m env s :
  exists t line,
    forallb is_smtp t = true /\
    (if smtp_accepts env m then line = LogEmailSent
     else exists e, line = LogEmailFailed e) /\
    deliver m env s =
      if printable env line then (Normal tt, s, t ++ [Print line])
      else (Abrupt (Raise UnicodeEncodeError), s, t).
Proof.
  unfold deliver, with_smtplib_SMTP, server_ehlo, server_starttls,
    server_login, server_send_message, smtp_accepts, Exception, printable.
  unfold_m. unfold print_fault_of.
  destruct (smtp_connect env (mail_host m) (mail_port m)) as [e|]; cbn.
  { eexists [_]; report. }
  destruct (smtp_ehlo env) as [e|]; cbn.
  { destruct (smtp_exit env); cbn;
      eexists [_; _; _]; report. }
  destruct (smtp_starttls env) as [e|]; cbn.
  { destruct (smtp_exit env); cbn;
      eexists [_; _; _; _]; report. }
  destruct (smtp_login env (mail_username m) (mail_password m)) as [e|]; cbn.
  { destruct (smtp_exit env); cbn;
      eexists [_; _; _; _; _]; report. }
  destruct (smtp_send_message env (mail_message m)) as [e|]; cbn.
  { destruct (smtp_exit env); cbn;
      eexists [_; _; _; _; _; _]; report. }
  destruct (smtp_exit env); cbn.
  - eexists [_; _; _; _; _; _]; report.
  - eexists [_; _; _; _; _; _], LogEmailSent.
    refine (conj _ (conj _ eq_refl)); reflexivity.
Qed.

Lemma send_alert_email_run email_config url expected_text env s :
  exists c rest,
    send_alert_email email_config url expected_text env s =
      (c, s, CallSendAlertEmail email_config url expected_text :: rest) /\
    forallb mailing rest = true /\
    (c = Normal tt \/ exists e, c = Abrupt (Raise e)).
Proof.
  rewrite send_alert_email_steps. cbn zeta.
  destruct (enabled_of email_config) as [[|]|e].
  - destruct (compose env email_config url expected_text) as [m|e].
    + destruct (deliver_run m env s) as (t & line & Ht & _ & ->).
      assert (Hm : forallb mailing t = true).
      { rewrite forallb_forall in *. intros e He. specialize (Ht e He).
        now destruct e. }
      destruct (printable env line).
      * exists (Normal tt), (t ++ [Print line]). repeat split; auto.
        rewrite forallb_app, Hm. reflexivity.
      * exists (Abrupt (Raise UnicodeEncodeError)), t.
        repeat split; eauto.
    + exists (Abrupt (Raise e)), []. repeat split; eauto.
  - exists (Normal tt), [Print LogEmailDisabled]. repeat split; auto.
  - exists (Abrupt (Raise e)), []. repeat split; eauto.
Qed.

Lemma count_mailing p t :
  (forall e, mailing e = true -> p e = false) ->
  forallb mailing t = true -> count p t = 0%nat.
Proof.
  intros Hp. induction t as [|e t IH]; [reflexivity|].
  cbn [forallb]. intros H. apply andb_prop in H as [He Ht].
  rewrite count_cons, (Hp e He). now apply IH.
Qed.


Lemma alive_mailing t :
  forallb mailing t = true -> existsb is_alive t = false.
Proof.
  induction t as [|e t IH]; cbn; [reflexivity|].
  intros H. apply andb_prop in H as [He Ht].
  destruct e; try discriminate; cbn; auto.
Qed.

(** ** A whole run *)

(** The lines of the preamble that can fail to be printed: the first
    line is fixed text. *)
Definition preamble_lines (st : settings) : list log :=
  [ LogUrl (st_url st);
    LogExpectedText (st_expected_text st);
    LogRetryDelay (st_retry_delay_seconds st);
    LogMaxAttempts (st_max_attempts st) ].

(** Printing lines in a row: what the first line that cannot be printed
    raises, and what is printed before it. *)
Fixpoint first_fault (env : environment) (lines : list log) : option exn :=
  match lines with
  | [] => None
  | line :: rest =>
      match print_fault_of env line with
      | Some e => Some e
      | None => first_fault env rest
      end
  end.

Fixpoint printed (env : environment) (lines : list log) : trace :=
  match lines with
  | [] => []
  | line :: rest =>
      match print_fault_of env line with
      | Some _ => []
      | None => Print line :: printed env rest
      end
  end.

(** What stops the run in its preamble, if anything, and what is printed
    of the preamble then. *)
Definition preamble_fault (env : environment) (st : settings) : option exn :=
  first_fault env (preamble_lines st).

Definition preamble_cut (env : environment) (st : settings) : trace :=
  Print LogStarting :: printed env (preamble_lines st).

Lemma check_with_steps st env s :
  check_with st env s =
  match preamble_fault env st with
  | None =>
    match
      while_ (Z.to_nat (st_max_attempts st)) (loop_cond (st_max_attempts st))
        (loop_body (st_url st) (st_expected_text st)
           (st_retry_delay_seconds st) (st_max_attempts st))
        env (Store (sessions s) 0 (driver s))
    with
    | (Normal _, s1, tl) =>
        match
          send_alert_email (st_email_config st) (st_url st)
            (st_expected_text st) env s1
        with
        | (Abrupt Return_, s2, t2) =>
            (Normal tt, s2, preamble st ++ tl ++ Print LogStillDown :: t2)
        | (c, s2, t2) =>
            (c, s2, preamble st ++ tl ++ Print LogStillDown :: t2)
        end
    | (Abrupt Return_, s1, tl) => (Normal tt, s1, preamble st ++ tl)
    | (Abrupt x, s1, tl) => (Abrupt x, s1, preamble st ++ tl)
    end
  | Some e => (Abrupt (Raise e), s, preamble_cut env st)
  end.
Proof.
  unfold check_with, def_, bind, print, set_attempts, preamble,
    preamble_fault, preamble_cut, preamble_lines.
  change (print_fault_of env LogStarting) with (@None exn).
  cbn [first_fault printed].
  destruct (print_fault_of env (LogUrl _)); simpl; [reflexivity|].
  destruct (print_fault_of env (LogExpectedText _)); simpl; [reflexivity|].
  destruct (print_fault_of env (LogRetryDelay _)); simpl; [reflexivity|].
  destruct (print_fault_of env (LogMaxAttempts _)); simpl; [reflexivity|].
  destruct (while_ _ _ _ _ _) as [[[[]|[]] s1] tl]; try reflexivity.
  destruct (send_alert_email _ _ _ _ _) as [[[[]|[]] s2] t2]; reflexivity.
Qed.


Lemma forallb_print_printed env lines :
  forallb is_print (printed env lines) = true.
Proof.
  induction lines as [|line rest IH]; cbn [printed]; [reflexivity|].
  now destruct (print_fault_of env line).
Qed.

Lemma forallb_print_cut env st : forallb is_print (preamble_cut env st) = true.
Proof. apply forallb_print_printed. Qed.

Section Run.
Variables (env : environment) (st : settings).
Hypothesis console : console_prints env st.
Hypothesis delay_ok : sleep_refusal env (st_retry_delay_seconds st) = None.

Let url := st_url st.
Let expected_text := st_expected_text st.
Let email_config := st_email_config st.

End Run.

(** ** Whatever the console and the pause do *)

(** A run prints its preamble, or stops in it; then it makes its
    attempts, and either stops there or reports and calls the alert. *)
Lemma check_with_trace st env s :
  let loop :=
    rounds
      (loop_body (st_url st) (st_expected_text st)
         (st_retry_delay_seconds st) (st_max_attempts st))
      (Z.to_nat (st_max_attempts st)) env (Store (sessions s) 0 (driver s)) in
  (exists e,
     preamble_fault env st = Some e /\
     check_with st env s = (Abrupt (Raise e), s, preamble_cut env st))
  \/
  preamble_fault env st = None /\
  exists tail,
    trace_of (check_with st env s) = preamble st ++ trace_of loop ++ tail /\
    (tail = [] /\
     (outcome loop = Abrupt Return_ /\ outcome (check_with st env s) = Normal tt
      \/ exists e, outcome loop = Abrupt (Raise e) /\
                   outcome (check_with st env s) = Abrupt (Raise e))
     \/
     outcome loop = Normal tt /\
     exists s1 c rest,
       send_alert_email (st_email_config st) (st_url st)
         (st_expected_text st) env s1 =
         (c, s1,
          CallSendAlertEmail (st_email_config st) (st_url st)
            (st_expected_text st) :: rest) /\
       tail =
         Print LogStillDown ::
         CallSendAlertEmail (st_email_config st) (st_url st)
           (st_expected_text st) :: rest /\
       forallb mailing rest = true /\
       outcome (check_with st env s) = c).
Proof.
  cbn zeta. rewrite check_with_steps.
  destruct (preamble_fault env st) as [e|]; [left; now exists e|right].
  split; [reflexivity|].
  rewrite loop_rounds.
  pose proof (rounds_checks env (st_url st) (st_expected_text st)
                (st_retry_delay_seconds st) (st_max_attempts st)
                (Z.to_nat (st_max_attempts st)) (sessions s) 0 (driver s))
    as (_ & _ & _ & _ & Hfin & _).
  destruct (rounds _ _ _ _) as [[[[]|[| e |]] s1] tl]; cbn in *.
  - destruct (send_alert_email_run (st_email_config st) (st_url st)
                (st_expected_text st) env s1)
      as (c & rest & Hsend & Hrest & Hc).
    rewrite Hsend. exists (Print LogStillDown ::
      CallSendAlertEmail (st_email_config st) (st_url st)
        (st_expected_text st) :: rest).
    destruct Hc as [->|[e ->]]; cbn; (split; [reflexivity|]); right;
      (split; [reflexivity|]); eexists s1, _, rest; repeat split; auto.
  - exists []. rewrite app_nil_r. split; [reflexivity|]. left. auto.
  - exists []. rewrite app_nil_r. split; [reflexivity|]. left.
    split; [reflexivity|]. right. eauto.
  - congruence.
Qed.


Lemma count_preamble_cut p env st :
  (forall l, p (Print l) = false) -> count p (preamble_cut env st) = 0%nat.
Proof.
  intros Hp. apply count_prints; [exact Hp|apply forallb_print_cut].
Qed.

(** A run returns or raises: its loop has all the fuel it needs. *)
Lemma run_single_check_outcome config env s :
  outcome (run_single_check config env s) = Normal tt \/
  exists e, outcome (run_single_check config env s) = Abrupt (Raise e).
Proof.
  rewrite run_single_check_reads.
  destruct (read_config env config) as [st|e]; [|right; now exists e].
  destruct (check_with_trace st env s)
    as [(e & _ & ->)
       |(_ & tail & _ & [(_ & [(_ & ->)|(e & _ & ->)])
                        |(_ & s1 & c & rest & Hsend & _ & _ & ->)])];
    [right; now eexists|now left|right; now exists e|].
  destruct (send_alert_email_run (st_email_config st) (st_url st)
              (st_expected_text st) env s1)
    as (c' & rest' & Hsend' & _ & Hc).
  rewrite Hsend in Hsend'. inversion Hsend'; subst. exact Hc.
Qed.

Lemma run_single_check_finishes config env s :
  outcome (run_single_check config env s) <> Abrupt Unfinished.
Proof.
  destruct (run_single_check_outcome config env s) as [->|(e & ->)];
    discriminate.
Qed.

(** ** The marker is an exact substring *)

Lemma startswith_spec needle hay :
  startswith needle hay = true <-> exists post, hay = needle ++ post.
Proof.
  revert hay. induction needle as [|c needle IH]; intros hay; cbn.
  - split; eauto.
  - destruct hay as [|d hay].
    + split; [discriminate|]. intros [post H]. discriminate.
    + rewrite andb_true_iff, N.eqb_eq, IH. split.
      * intros [-> [post ->]]. eauto.
      * intros [post H]. inversion H. eauto.
Qed.

Lemma str_contains_spec needle hay :
  str_contains needle hay = true <->
  exists pre post, hay = pre ++ needle ++ post.
Proof.
  induction hay as [|d hay IH]; cbn -[startswith].
  - rewrite orb_false_r, startswith_spec. split.
    + intros [post H]. exists [], post. exact H.
    + intros (pre & post & H). destruct pre; [eauto|discriminate].
  - rewrite orb_true_iff, startswith_spec, IH. split.
    + intros [[post H]|(pre & post & H)].
      * exists [], post. exact H.
      * exists (d :: pre), post. cbn. now rewrite H.
    + intros (pre & post & H). destruct pre as [|c pre].
      * left. eauto.
      * right. inversion H. eauto.
Qed.

(** C3.  When the page is fetched ([driver.get] and [driver.page_source]
    return), [is_app_alive] returns, and returns "alive" if and only if
    the expected text occurs in the page source as it is: the same code
    points, consecutive, nothing normalized. *)
Theorem is_app_alive_exact_substring
    env d url (expected_text page_source : str) s :
  chrome_get env d url = None ->
  chrome_page_source env d = Ok page_source ->
  exists alive,
    outcome (is_app_alive d url (JStr expected_text) env s) = Normal alive /\
    (alive = true <->
     exists pre post, page_source = pre ++ expected_text ++ post).
Proof.
  intros Hget Hpage.
  exists (str_contains expected_text page_source). split.
  - unfold is_app_alive, py_in. unfold_m. rewrite Hget. cbn.
    rewrite Hpage. reflexivity.
  - apply str_contains_spec.
Qed.

Lemma is_app_alive_exact_substring_witness :
  exists alive,
    outcome
      (is_app_alive 0%nat (JStr (py "https://londublis.com/"))
         (JStr (py "I'm alive")) (calm (py "Hello, I'm alive!")) store0) =
    Normal alive /\
    (alive = true <->
     exists pre post,
       py "Hello, I'm alive!" = pre ++ py "I'm alive" ++ post).
Proof.
  exact (is_app_alive_exact_substring (calm (py "Hello, I'm alive!")) 0%nat
           (JStr (py "https://londublis.com/")) (py "I'm alive")
           (py "Hello, I'm alive!") store0 eq_refl eq_refl).
Defined.

(** The check is case-sensitive. *)
Example is_app_alive_case_sensitive :
  outcome
    (is_app_alive 0%nat (JStr (py "https://londublis.com/"))
       (JStr (py "I'm alive")) (calm (py "Hello, I'M ALIVE!")) store0) =
  Normal false.
Proof. reflexivity. Qed.

(** ** The alert: what is caught and what is not *)

(** A notification configuration that is enabled and complete, for the
    recipients [to]. *)
Definition enabled_email_config (to : json) : json :=
  JObj
    [ (py "enabled", JBool true);
      (py "smtp_host", JStr (py "mail.londublis.com"));
      (py "smtp_port", JInt 25);
      (py "smtp_username", JStr (py "your@londublis.com"));
      (py "smtp_password", JStr (py "your_password"));
      (py "from", JStr (py "your@londublis.com"));
      (py "to", to);
      (py "subject", JStr (py "Vacation bot on Render is DOWN")) ].

Definition the_url : json := JStr (py "https://londublis.com/").
Definition the_text : json := JStr (py "I'm alive").
Definition one_recipient : json := JList [JStr (py "dest1@email.com")].

(** A mail server that refuses the login. *)
Definition bad_credentials : environment :=
  Environment no_int_of_str
    (fun _ => None) (fun _ _ => None) (fun _ => Ok (py "Hello"))
    (fun _ => None)
    (fun _ _ => None) None None
    (fun _ _ => Some (OtherException (py "SMTPAuthenticationError")))
    (fun _ => None) None any_number any_line any_length.

(** C4, as stated, fails: a failure of the composition leaves
    [send_alert_email] as an exception and nothing is reported.  Here a
    recipient that is not a string ([", ".join] raises [TypeError]), and a
    URL with a lone surrogate ([MIMEText] cannot encode the body). *)
Lemma composition_failure_propagates :
  send_alert_email (enabled_email_config (JList [JInt 5])) the_url the_text
    (calm (py "Hello")) store0 =
  (Abrupt (Raise TypeError), store0,
   [CallSendAlertEmail (enabled_email_config (JList [JInt 5])) the_url
      the_text]) /\
  send_alert_email (enabled_email_config one_recipient) (JStr [55296%N])
    the_text (calm (py "Hello")) store0 =
  (Abrupt (Raise UnicodeEncodeError), store0,
   [CallSendAlertEmail (enabled_email_config one_recipient)
      (JStr [55296%N]) the_text]).
Proof. split; reflexivity. Qed.

(** C4, amended.  With an enabled configuration, once the message is
    composed every failure of the delivery (connecting, EHLO, STARTTLS,
    login, sending, closing the session) is caught and reported by one
    printed line, and [send_alert_email] returns normally, when the
    console can print that line; when it cannot, the [UnicodeEncodeError]
    of [print] leaves the function from the handler.  A failure of the
    composition is raised before the guarded block and leaves the function
    as it is. *)
Theorem delivery_failures_are_caught env email_config url expected_text s :
  enabled_of email_config = Ok true ->
  match compose env email_config url expected_text with
  | Ok m =>
      exists t line,
        forallb is_smtp t = true /\
        (if smtp_accepts env m then line = LogEmailSent
         else exists e, line = LogEmailFailed e) /\
        send_alert_email email_config url expected_text env s =
          if printable env line then
            (Normal tt, s,
             CallSendAlertEmail email_config url expected_text ::
             t ++ [Print line])
          else
            (Abrupt (Raise UnicodeEncodeError), s,
             CallSendAlertEmail email_config url expected_text :: t)
  | Err e =>
      send_alert_email email_config url expected_text env s =
        (Abrupt (Raise e), s,
         [CallSendAlertEmail email_config url expected_text])
  end.
Proof.
  intros Hen. rewrite send_alert_email_steps, Hen. cbn zeta.
  destruct (compose env email_config url expected_text) as [m|e];
    [|reflexivity].
  destruct (deliver_run m env s) as (t & line & Ht & Hline & ->).
  exists t, line. repeat split; auto.
  now destruct (printable env line).
Qed.

Lemma delivery_failures_are_caught_witness :
  exists t line,
    forallb is_smtp t = true /\
    (exists e, line = LogEmailFailed e) /\
    send_alert_email (enabled_email_config one_recipient) the_url the_text
      bad_credentials store0 =
      if printable bad_credentials line then
        (Normal tt, store0,
         CallSendAlertEmail (enabled_email_config one_recipient) the_url
           the_text :: t ++ [Print line])
      else
        (Abrupt (Raise UnicodeEncodeError), store0,
         CallSendAlertEmail (enabled_email_config one_recipient) the_url
           the_text :: t).
Proof.
  exact (delivery_failures_are_caught bad_credentials
           (enabled_email_config one_recipient) the_url the_text store0
           eq_refl).
Defined.

(** The server refuses the login and the console prints the report: the
    failure is reported and the function returns. *)
Example delivery_failure_reported :
  send_alert_email (enabled_email_config one_recipient) the_url the_text
    bad_credentials store0 =
  (Normal tt, store0,
   [ CallSendAlertEmail (enabled_email_config one_recipient) the_url
       the_text;
     SmtpConnect (JStr (py "mail.londublis.com")) (JInt 25) None;
     SmtpEhlo None; SmtpStartTls None;
     SmtpLogin (JStr (py "your@londublis.com")) (JStr (py "your_password"))
       (Some (OtherException (py "SMTPAuthenticationError")));
     SmtpExit None;
     Print (LogEmailFailed (OtherException (py "SMTPAuthenticationError")))
   ]).
Proof. reflexivity. Qed.

(** ** What a run does, read from its trace *)



Section Summary.
Variables (env : environment) (st : settings) (s : store).
Hypothesis console : console_prints env st.
Hypothesis delay_ok : sleep_refusal env (st_retry_delay_seconds st) = None.

Let url := st_url st.
Let expected_text := st_expected_text st.
Let email_config := st_email_config st.
Let run := check_with st env s.
Let alive :=
  alive_within env url expected_text (sessions s)
    (Z.to_nat (st_max_attempts st)).

End Summary.

Lemma alive_prints t : forallb is_print t = true -> existsb is_alive t = false.
Proof.
  induction t as [|e t IH]; cbn; [reflexivity|].
  intros H. apply andb_prop in H as [He Ht].
  destruct e; try discriminate; cbn; auto.
Qed.

(** Facts of a run that hold whatever the console and the pause do. *)
Lemma check_with_checks st env s :
  let run := check_with st env s in
  let t := trace_of run in
  (count is_check t <= Z.to_nat (st_max_attempts st))%nat /\
  (count is_attempt t <= Z.to_nat (st_max_attempts st))%nat /\
  (count is_notify t <= 1)%nat /\
  (printable env LogAlive = true ->
   forallb idle (after_alive t) = true /\
   (existsb is_alive t = true ->
    outcome run = Normal tt /\ count is_notify t = 0%nat)).
Proof.
  cbn zeta.
  destruct (check_with_trace st env s)
    as [(e0 & _ & ->)|(_ & tail & Ht & Htail)].
  { cbn [trace_of outcome fst snd].
    rewrite !count_preamble_cut by reflexivity.
    rewrite (after_alive_none (preamble_cut env st)),
      (alive_prints (preamble_cut env st))
      by (try apply alive_prints; apply forallb_print_cut).
    repeat split; try lia; discriminate. }
  rewrite Ht.
  pose proof (rounds_checks env (st_url st) (st_expected_text st)
                (st_retry_delay_seconds st) (st_max_attempts st)
                (Z.to_nat (st_max_attempts st)) (sessions s) 0 (driver s))
    as (C1 & C2 & C3 & C4 & C5 & C6).
  cbn zeta in *.
  set (loop := rounds _ _ _ _) in *.
  assert (Htl : count is_check tail = 0%nat /\
                count is_attempt tail = 0%nat /\
                (count is_notify tail <= 1)%nat /\
                (outcome loop = Abrupt Return_ ->
                 tail = [] /\ outcome (check_with st env s) = Normal tt) /\
                after_alive tail = [] /\
                existsb is_alive tail = false).
  { destruct Htail as [(-> & Hend)
                      |(Hn & s1 & c & rest & _ & -> & Hrest & _)].
    - repeat split; auto.
      destruct Hend as [(_ & Hend)|(e & He & _)]; congruence.
    - assert (Hquiet : forall p,
                 (forall e, mailing e = true -> p e = false) ->
                 count p rest = 0%nat)
        by (intros p Hp; now apply count_mailing).
      rewrite !count_cons.
      rewrite (Hquiet is_notify), (Hquiet is_attempt), (Hquiet is_check)
        by (intros e; destruct e; cbn; congruence).
      cbn. rewrite (alive_mailing rest Hrest).
      repeat split; auto; try congruence.
      now apply after_alive_none, alive_mailing. }
  destruct Htl as (T1 & T2 & T3 & T4 & T5 & T6).
  unfold preamble. read_trace. rewrite T1, T2, T5, T6, C3.
  repeat split; try lia.
  - destruct (C6 H) as (I & R).
    destruct (existsb is_alive (trace_of loop)) eqn:Ha; [|reflexivity].
    destruct (T4 (R eq_refl)) as (-> & _). now rewrite app_nil_r.
  - destruct (C6 H) as (I & R). rewrite orb_false_r in H0.
    now destruct (T4 (R H0)).
  - destruct (C6 H) as (I & R). rewrite orb_false_r in H0.
    destruct (T4 (R H0)) as (-> & _). reflexivity.
Qed.

Lemma check_with_sessions st env s d :
  let t := trace_of (check_with st env s) in
  count (is_quit d) t = count (is_open d) t /\
  (count (is_open d) t <= 1)%nat.
Proof.
  cbn zeta.
  destruct (check_with_trace st env s)
    as [(e0 & _ & ->)|(_ & tail & -> & Htail)].
  { cbn [trace_of snd].
    rewrite !count_preamble_cut by reflexivity. lia. }
  pose proof (rounds_sessions env (st_url st) (st_expected_text st)
                (st_retry_delay_seconds st) (st_max_attempts st)
                (Z.to_nat (st_max_attempts st)) (sessions s) 0 (driver s) d)
    as (S1 & S2 & _).
  cbn zeta in *.
  set (loop := rounds _ _ _ _) in *.
  assert (Htl : count (is_quit d) tail = 0%nat /\
                count (is_open d) tail = 0%nat).
  { destruct Htail as [(-> & _)|(Hn & s1 & c & rest & _ & -> & Hrest & _)].
    - auto.
    - rewrite !count_cons. cbn.
      split; (apply count_mailing; [|exact Hrest]);
        intros e; destruct e; cbn; congruence. }
  destruct Htl as (T1 & T2).
  unfold preamble. read_trace. rewrite T1, T2. lia.
Qed.


(** ** The claims about a run *)

(** The settings that [run_single_check] reads from the default
    configuration. *)
Definition default_settings : settings :=
  Eval vm_compute in
    match read_config (calm []) create_default_config_dict with
    | Ok st => st
    | Err _ => Settings JNull JNull 0 0 JNull
    end.



(** A console whose encoding has no check mark (cp1252, Latin-1, ASCII):
    it prints every line of the scenarios but the success line. *)
Definition no_check_mark : log -> bool := fun line =>
  match line with
  | LogAlive => false
  | _ => true
  end.

(** A world where every page shows [page], on such a console. *)
Definition narrow_console (page : str) : environment :=
  Environment no_int_of_str
    (fun _ => None) (fun _ _ => None) (fun _ => Ok page) (fun _ => None)
    (fun _ _ => None) None None (fun _ _ => None) (fun _ => None) None
    any_number no_check_mark any_length.

(** A UTF-8 console: it refuses a text with a lone surrogate. *)
Definition utf8 : log -> bool := fun line =>
  match line with
  | LogUrl v | LogExpectedText v => format_encodable v
  | _ => true
  end.

Definition utf8_console (page : str) : environment :=
  Environment no_int_of_str
    (fun _ => None) (fun _ _ => None) (fun _ => Ok page) (fun _ => None)
    (fun _ _ => None) None None (fun _ _ => None) (fun _ => None) None
    any_number utf8 any_length.

(** The interpreter as it is installed: an integer of more than 4300
    digits is not written in decimal. *)
Definition default_int_str : Z -> bool := fun z => Z.abs z <? 10 ^ 4300.

(** A stock installation: that interpreter, on a UTF-8 console. *)
Definition stock (page : str) : environment :=
  Environment no_int_of_str
    (fun _ => None) (fun _ _ => None) (fun _ => Ok page) (fun _ => None)
    (fun _ _ => None) None None (fun _ _ => None) (fun _ => None) None
    default_int_str utf8 any_length.


(** A stock installation prints every line of a run on the default
    configuration. *)
Example stock_prints_the_default_run page :
  console_prints (stock page) default_settings.
Proof.
  intros line H. unfold print_fault_of, formattable, plain.
  assert (Hbig : 2 < 10 ^ 4300) by (vm_compute; reflexivity).
  destruct line as [ |u|x|z|z|a m| | |a e|z| |e| | |e];
    cbn in H;
    repeat match goal with C : _ /\ _ |- _ => destruct C end;
    subst; try reflexivity;
    cbn [int_str stock]; unfold default_int_str;
    set (limit := 10 ^ 4300) in *;
    replace (Z.abs a <? limit) with true by lia; reflexivity.
Qed.




(** C2.  The code misses what the claim says.  On a console that cannot
    print the success line (U+2705 is not in its encoding), the [print] of
    line 188 raises between the return of "alive" and the [return] that
    should end the run; the exception is handled as a failure of the
    attempt, and the run goes on: here, with the default configuration and
    a page that shows the expected text, [is_app_alive] is called a second
    time after it returned "alive", both calls return "alive", and the
    alert is called. *)
Lemma success_line_failure_repeats_the_check :
  let run :=
    run_single_check create_default_config_dict
      (narrow_console (py "Hello, I'm alive!")) store0 in
  let t := trace_of run in
  count is_check t = 2%nat /\
  count is_alive t = 2%nat /\
  count is_check (after_alive t) = 1%nat /\
  In (Print (LogUnexpectedError 1 UnicodeEncodeError)) t /\
  (forall l, In (Print l) t -> l <> LogAlive) /\
  count is_pause t = 1%nat /\
  count is_notify t = 1%nat.
Proof.
  vm_compute. repeat split; auto 20.
  intros l H.
  repeat (destruct H as [H|H]; [inversion H; discriminate|]).
  destruct H.
Qed.

(** A browser that cannot be started. *)
Definition no_browser : environment :=
  Environment no_int_of_str
    (fun _ => Some (WebDriverException (py "session not created")))
    (fun _ _ => None) (fun _ => Ok (py "Hello")) (fun _ => None)
    (fun _ _ => None) None None (fun _ _ => None) (fun _ => None) None
    any_number any_line any_length.

Definition is_any_quit (e : event) : bool :=
  match e with ChromeQuit _ _ => true | _ => false end.

(** C5, as stated, fails: an attempt in which [create_webdriver] raises is
    an attempt of the run, counted and reported, and [driver.quit] is not
    called in it ([driver] is still [None] in the [finally] block).  Here
    both attempts of the default configuration are made and nothing is
    quit. *)
Lemma attempt_without_session_quits_nothing :
  let t :=
    trace_of (run_single_check create_default_config_dict no_browser store0)
  in
  count is_attempt t = 2%nat /\
  In (Print (LogUnexpectedError 1
               (WebDriverException (py "session not created")))) t /\
  In (Print (LogUnexpectedError 2
               (WebDriverException (py "session not created")))) t /\
  count is_any_quit t = 0%nat.
Proof. vm_compute. intuition. Qed.

(** C5, amended.  In every run, every browser session that
    [create_webdriver] returned is quit exactly once, whether its attempt
    found the page alive, found it not alive, or raised during the fetch or
    the inspection; no session is opened twice, and an attempt in which
    [create_webdriver] raised has no session and quits nothing. *)
Theorem opened_session_quit_once env config s d :
  let t := trace_of (run_single_check config env s) in
  count (is_quit d) t = count (is_open d) t /\
  (count (is_open d) t <= 1)%nat.
Proof.
  cbn zeta. rewrite run_single_check_reads.
  destruct (read_config env config) as [st|e].
  - apply check_with_sessions.
  - cbn. lia.
Qed.







(** The run of scenario B: two attempts, one pause of 60 seconds between
    them. *)
Example timeline_two_failures :
  timeline
    (trace_of
       (run_single_check create_default_config_dict (calm (py "Hello"))
          store0)) =
  [Attempt; Pause 60; Attempt].
Proof. reflexivity. Qed.

(** A browser whose every navigation fails with an error that is not a
    [WebDriverException], and whose sessions do not even quit cleanly. *)
Definition broken_browser : environment :=
  Environment no_int_of_str
    (fun _ => None)
    (fun _ _ => Some (OtherException (py "MaxRetryError")))
    (fun _ => Err (OtherException (py "MaxRetryError")))
    (fun _ => Some (OtherException (py "MaxRetryError")))
    (fun _ _ => None) None None (fun _ _ => None) (fun _ => None) None
    any_number any_line any_length.



(** A configuration with the notification settings [email_config]. *)
Definition alerting_config (email_config : json) : json :=
  JObj
    [ (py "url", the_url);
      (py "expected_text", the_text);
      (py "retry_delay_seconds", JInt 60);
      (py "max_attempts", JInt 2);
      (py "email", email_config) ].




(** With the broken browser the run is exhausted after its two attempts
    and still returns normally. *)
Example broken_browser_run :
  let run :=
    run_single_check create_default_config_dict broken_browser store0 in
  outcome run = Normal tt /\
  count is_attempt (trace_of run) = 2%nat /\
  count is_notify (trace_of run) = 1%nat.
Proof. vm_compute. auto. Qed.






(** Scenario D: every attempt fails and the alert is disabled. *)
Example disabled_alert_scenario :
  let run :=
    run_single_check create_default_config_dict (calm (py "Hello")) store0 in
  outcome run = Normal tt /\
  count is_notify (trace_of run) = 1%nat /\
  count is_smtp (trace_of run) = 0%nat.
Proof. vm_compute. auto. Qed.

(** A configuration that allows no attempt, and one without an "email"
    section. *)
Definition zero_attempts_config : json :=
  JObj
    [ (py "url", the_url);
      (py "expected_text", the_text);
      (py "retry_delay_seconds", JInt 60);
      (py "max_attempts", JInt 0);
      (py "email", enabled_email_config one_recipient) ].


(** A run that makes no attempt: the preamble, the report, the alert. *)
Lemma no_attempt_run env st s :
  st_max_attempts st <= 0 ->
  preamble_fault env st = None ->
  let run := check_with st env s in
  let alert :=
    send_alert_email (st_email_config st) (st_url st) (st_expected_text st)
      env (Store (sessions s) 0 (driver s)) in
  run =
    (outcome alert, final_store alert,
     preamble st ++ Print LogStillDown :: trace_of alert) /\
  count is_attempt (trace_of run) = 0%nat /\
  count is_check (trace_of run) = 0%nat /\
  count is_pause (trace_of run) = 0%nat /\
  count is_notify (trace_of run) = 1%nat.
Proof.
  intros Hmax Hpre. cbn zeta.
  rewrite check_with_steps, Hpre.
  replace (Z.to_nat (st_max_attempts st)) with 0%nat by lia.
  cbn [while_]. unfold loop_cond, bind, get_attempts, ret.
  cbn [attempts app].
  replace (0 <? st_max_attempts st) with false by lia.
  destruct (send_alert_email_run (st_email_config st) (st_url st)
              (st_expected_text st) env (Store (sessions s) 0 (driver s)))
    as (c & rest & -> & Hrest & Hc).
  cbn [outcome final_store trace_of fst snd].
  assert (Hquiet : forall p,
             (forall e, mailing e = true -> p e = false) ->
             count p rest = 0%nat)
    by (intros p Hp; now apply count_mailing).
  unfold preamble.
  destruct Hc as [->|[e ->]]; cbn [trace_of snd]; read_trace;
    rewrite (Hquiet is_notify), (Hquiet is_attempt), (Hquiet is_check),
      (Hquiet is_pause)
      by (intros x; destruct x; cbn; congruence);
    auto.
Qed.

(** C9, as stated, fails: with [max_attempts] 0 and a URL that the
    console cannot encode (a lone surrogate, on a UTF-8 console), the
    second line of the preamble raises and the run ends there: the alert
    is not called.  So does a run whose retry delay the interpreter cannot
    write (an integer of 4301 digits), at the fourth line. *)
Lemma zero_attempts_can_stop_in_the_preamble :
  run_single_check
    (JObj [ (py "url", JStr [55296%N]);
            (py "expected_text", the_text);
            (py "max_attempts", JInt 0);
            (py "email", enabled_email_config one_recipient) ])
    (utf8_console (py "Hello")) store0 =
  (Abrupt (Raise UnicodeEncodeError), store0, [Print LogStarting]) /\
  run_single_check
    (JObj [ (py "url", the_url);
            (py "expected_text", the_text);
            (py "retry_delay_seconds", JInt (10 ^ 4300));
            (py "max_attempts", JInt 0);
            (py "email", enabled_email_config one_recipient) ])
    (stock (py "Hello")) store0 =
  (Abrupt (Raise ValueError), store0,
   [Print LogStarting; Print (LogUrl the_url);
    Print (LogExpectedText the_text)]).
Proof. split; vm_compute; reflexivity. Qed.

(** C9, amended.  When [max_attempts] is 0 and the preamble can be
    printed (the console can encode the URL and the expected text, the
    interpreter can write the numbers), the loop body never runs: no browser
    session is requested, [is_app_alive] is not called, there is no pause;
    after its preamble the run reports that the application is down and
    calls [send_alert_email], and ends as that call ends. *)
Theorem zero_attempts_go_straight_to_the_alert env config st s :
  read_config env config = Ok st ->
  st_max_attempts st = 0 ->
  preamble_fault env st = None ->
  let run := run_single_check config env s in
  let alert :=
    send_alert_email (st_email_config st) (st_url st) (st_expected_text st)
      env (Store (sessions s) 0 (driver s)) in
  run =
    (outcome alert, final_store alert,
     preamble st ++ Print LogStillDown :: trace_of alert) /\
  count is_attempt (trace_of run) = 0%nat /\
  count is_check (trace_of run) = 0%nat /\
  count is_pause (trace_of run) = 0%nat /\
  count is_notify (trace_of run) = 1%nat.
Proof.
  intros Hread Hmax Hpre. cbn zeta.
  rewrite run_single_check_reads, Hread.
  apply no_attempt_run; auto. lia.
Qed.

Lemma zero_attempts_go_straight_to_the_alert_witness :
  let env := bad_credentials in
  let run := run_single_check zero_attempts_config env store0 in
  let alert :=
    send_alert_email (enabled_email_config one_recipient) the_url the_text
      env (Store 0 0 None) in
  run =
    (outcome alert, final_store alert,
     [ Print LogStarting; Print (LogUrl the_url);
       Print (LogExpectedText the_text); Print (LogRetryDelay 60);
       Print (LogMaxAttempts 0) ] ++
     Print LogStillDown :: trace_of alert) /\
  count is_attempt (trace_of run) = 0%nat /\
  count is_check (trace_of run) = 0%nat /\
  count is_pause (trace_of run) = 0%nat /\
  count is_notify (trace_of run) = 1%nat.
Proof.
  exact (zero_attempts_go_straight_to_the_alert bad_credentials
           zero_attempts_config
           (Settings the_url the_text 60 0
              (enabled_email_config one_recipient))
           store0 eq_refl eq_refl eq_refl).
Defined.





(** ** The scenarios of the specification *)

(** Three attempts allowed. *)
Definition three_attempts_config : json :=
  JObj
    [ (py "url", the_url);
      (py "expected_text", the_text);
      (py "retry_delay_seconds", JInt 60);
      (py "max_attempts", JInt 3);
      (py "email", enabled_email_config one_recipient) ].

(** The first navigation fails in the renderer, the second page is alive. *)
Definition recovering : environment :=
  Environment no_int_of_str
    (fun _ => None)
    (fun d _ =>
       match d with
       | O => Some (WebDriverException (py "net::ERR_CONNECTION_REFUSED"))
       | S _ => None
       end)
    (fun _ => Ok (py "I'm alive")) (fun _ => None)
    (fun _ _ => None) None None (fun _ _ => None) (fun _ => None) None
    any_number any_line any_length.

(** Scenario A: alive at the first attempt. *)
Example scenario_alive_at_once :
  let run :=
    run_single_check create_default_config_dict
      (calm (py "Hello, I'm alive!")) store0 in
  outcome run = Normal tt /\
  timeline (trace_of run) = [Attempt] /\
  count is_notify (trace_of run) = 0%nat.
Proof. vm_compute. auto. Qed.

(** Scenario C: an error, then alive. *)
Example scenario_error_then_alive :
  let run := run_single_check three_attempts_config recovering store0 in
  outcome run = Normal tt /\
  timeline (trace_of run) = [Attempt; Pause 60; Attempt] /\
  count is_check (trace_of run) = 2%nat /\
  count is_notify (trace_of run) = 0%nat.
Proof. vm_compute. auto. Qed.

(** Scenario E: exhausted, and the mail server refuses the login. *)
Example scenario_delivery_fails :
  let run :=
    run_single_check (alerting_config (enabled_email_config one_recipient))
      bad_credentials store0 in
  outcome run = Normal tt /\
  count is_notify (trace_of run) = 1%nat /\
  In (Print (LogEmailFailed (OtherException (py "SMTPAuthenticationError"))))
    (trace_of run).
Proof. vm_compute. intuition. Qed.

(** A negative retry delay is refused by [time.sleep] at the first pause. *)
Example negative_delay_aborts :
  outcome
    (run_single_check
       (JObj
          [ (py "url", the_url);
            (py "expected_text", the_text);
            (py "retry_delay_seconds", JInt (-1)) ])
       (calm (py "Hello")) store0) =
  Abrupt (Raise ValueError).
Proof. vm_compute. reflexivity. Qed.

(** * Further properties of the program *)

(** ** [is_app_alive] *)

(** X1.  A failure of [driver.get] or of [driver.page_source] ends
    [is_app_alive] according to its class: a [WebDriverException] is
    caught and printed, and the function returns [False]; when the console
    cannot print its message, the [UnicodeEncodeError] of [print] leaves
    the function instead.  Any other exception leaves the function, and
    nothing is printed. *)
Theorem is_app_alive_on_fetch_failure env d url expected_text s e :
  chrome_get env d url = Some e \/
  chrome_get env d url = None /\ chrome_page_source env d = Err e ->
  let run := is_app_alive d url expected_text env s in
  if isWebDriverException e then
    if printable env (LogWebDriverException e) then
      outcome run = Normal false /\
      In (Print (LogWebDriverException e)) (trace_of run) /\
      In (ReturnIsAppAlive false) (trace_of run)
    else
      outcome run = Abrupt (Raise UnicodeEncodeError) /\
      (forall l, ~ In (Print l) (trace_of run)) /\
      (forall alive, ~ In (ReturnIsAppAlive alive) (trace_of run))
  else
    outcome run = Abrupt (Raise e) /\
    forall l, ~ In (Print l) (trace_of run).
Proof.
  intros H. cbn zeta. unfold is_app_alive, py_in, printable. unfold_m.
  unfold print_fault_of.
  destruct H as [Hget|[Hget Hpage]]; rewrite Hget; cbn;
    [|rewrite Hpage; cbn];
    destruct (isWebDriverException e); cbn;
    try destruct (stdout_encodes env (LogWebDriverException e)); cbn;
    intuition congruence.
Qed.

Lemma is_app_alive_on_fetch_failure_witness :
  let run :=
    is_app_alive 0%nat the_url the_text broken_browser store0 in
  outcome run = Abrupt (Raise (OtherException (py "MaxRetryError"))) /\
  forall l, ~ In (Print l) (trace_of run).
Proof.
  exact (is_app_alive_on_fetch_failure broken_browser 0%nat the_url the_text
           store0 (OtherException (py "MaxRetryError"))
           (or_introl eq_refl)).
Defined.

(** X2.  [is_app_alive] never raises a [WebDriverException], whatever the
    browser does and whatever the expected text is. *)
Theorem is_app_alive_never_raises_webdriver_exception
    env d url expected_text s detail :
  outcome (is_app_alive d url expected_text env s) <>
  Abrupt (Raise (WebDriverException detail)).
Proof.
  unfold is_app_alive, py_in. unfold_m.
  destruct (chrome_get env d url) as [e|]; cbn.
  - unfold print_fault_of.
    destruct e; cbn;
      try destruct (stdout_encodes env (LogWebDriverException _));
      discriminate.
  - destruct (chrome_page_source env d) as [page|e]; cbn.
    + destruct expected_text; cbn; discriminate.
    + unfold print_fault_of.
      destruct e; cbn;
        try destruct (stdout_encodes env (LogWebDriverException _));
        discriminate.
Qed.

(** The events of a page check on session [d]. *)
Definition check_step (d : session) (url expected_text : json) (e : event)
  : Prop :=
  match e with
  | CallIsAppAlive d' u x => d' = d /\ u = url /\ x = expected_text
  | ChromeGet d' u _ => d' = d /\ u = url
  | ChromePageSource d' _ => d' = d
  | Print _ | ReturnIsAppAlive _ => True
  | _ => False
  end.

Definition is_get (e : event) : bool :=
  match e with ChromeGet _ _ _ => true | _ => false end.
Definition is_page_source (e : event) : bool :=
  match e with ChromePageSource _ _ => true | _ => false end.

(** X3.  [is_app_alive] only looks: it navigates once, to the given URL
    on the given session; it reads the page source of that session once
    if the navigation returned, and not at all if it raised; it does
    nothing else to the browser (it opens and quits no session), never
    pauses and never mails, and leaves the variables of its caller as they
    are. *)
Theorem is_app_alive_only_looks env d url expected_text s :
  let run := is_app_alive d url expected_text env s in
  final_store run = s /\
  Forall (check_step d url expected_text) (trace_of run) /\
  count is_get (trace_of run) = 1%nat /\
  count is_page_source (trace_of run) =
    match chrome_get env d url with
    | None => 1%nat
    | Some _ => 0%nat
    end.
Proof.
  cbn zeta. unfold is_app_alive, py_in. unfold_m.
  destruct (chrome_get env d url) as [e|]; cbn.
  - destruct (isWebDriverException e); cbn; ask_console env;
      repeat split; repeat constructor; auto.
  - destruct (chrome_page_source env d) as [page|e]; cbn.
    + destruct expected_text; cbn;
        repeat split; repeat constructor; auto.
    + destruct (isWebDriverException e); cbn; ask_console env;
        repeat split; repeat constructor; auto.
Qed.

(** ** The shape of an attempt and of a run *)

Lemma is_app_alive_steps env d url expected_text s :
  final_store (is_app_alive d url expected_text env s) = s /\
  Forall (check_step d url expected_text)
    (trace_of (is_app_alive d url expected_text env s)).
Proof.
  unfold is_app_alive, py_in. unfold_m.
  destruct (chrome_get env d url) as [e|]; cbn.
  - destruct (isWebDriverException e); cbn; ask_console env;
      repeat split; repeat constructor; auto.
  - destruct (chrome_page_source env d) as [page|e]; cbn.
    + destruct expected_text; cbn;
        repeat split; repeat constructor; auto.
    + destruct (isWebDriverException e); cbn; ask_console env;
        repeat split; repeat constructor; auto.
Qed.

(** An attempt on session [n]: the browser is asked for a session; with
    one, the page is checked and the session is quit; a pause may follow. *)
Definition attempt_shape (n : session) (url expected_text : json)
    (retry_delay_seconds : Z) (t : trace) : Prop :=
  exists r mid q pause,
    t = ChromeNew chrome_options r :: mid ++ q ++ pause /\
    (r = Ok n /\ Forall (check_step n url expected_text) mid /\
     (exists x, q = [ChromeQuit n x])
     \/
     (exists e, r = Err e) /\ forallb is_print mid = true /\ q = []) /\
    (pause = [] \/
     pause = [Print (LogWaiting retry_delay_seconds)] \/
     pause = [Print (LogWaiting retry_delay_seconds);
              Sleep retry_delay_seconds]).

Section Shape.
Variables (env : environment) (url expected_text : json).
Variables (retry_delay_seconds max_attempts : Z).

Let body := loop_body url expected_text retry_delay_seconds max_attempts.

Lemma loop_body_shape n a dr :
  attempt_shape n url expected_text retry_delay_seconds
    (trace_of (body env (Store n a dr))).
Proof.
  subst body. unfold attempt_shape.
  unfold loop_body, create_webdriver, webdriver_Chrome, printable.
  unfold_m. cbn [sessions attempts driver plain orb].
  destruct (chrome_new env n) as [e|]; cbn -[is_app_alive].
  - exists (Err e).
    ask_console env;
      destruct (a + 1 <? max_attempts); cbn;
      ask_console env;
      try destruct (sleep_refusal env retry_delay_seconds); cbn;
      first
        [ eexists [_]; exists []; eexists;
          solve [(split; [reflexivity|]); (split; [right; eauto|]); auto]
        | exists []; exists []; eexists;
          solve [(split; [reflexivity|]); (split; [right; eauto|]); auto] ].
  - destruct (print_fault_of env (LogAttempt (a + 1) max_attempts))
      as [f|] eqn:Hannounce; cbn -[is_app_alive].
    { exists (Ok n).
      ask_console env;
        destruct (chrome_quit env n) as [x|]; cbn;
        destruct (a + 1 <? max_attempts); cbn;
        ask_console env;
        try destruct (sleep_refusal env retry_delay_seconds); cbn;
        first
          [ eexists [_]; eexists [_]; eexists;
            solve [(split; [reflexivity|]);
                   (split; [left; repeat split; eauto;
                            repeat constructor|]); auto]
          | exists []; eexists [_]; eexists;
            solve [(split; [reflexivity|]);
                   (split; [left; repeat split; eauto;
                            repeat constructor|]); auto] ]. }
    pose proof (is_app_alive_steps env n url expected_text
                  (Store (S n) (a + 1) (@Some session n))) as (_ & Hf).
    destruct (is_app_alive_run env n url expected_text
                (Store (S n) (a + 1) (@Some session n)))
      as (c & t & Heq & Hc & _).
    rewrite Heq in *. cbn [trace_of snd] in Hf.
    exists (Ok n).
    assert (Hmid : forall tail,
              forallb is_print tail = true ->
              Forall (check_step n url expected_text)
                (Print (LogAttempt (a + 1) max_attempts) :: t ++ tail)).
    { intros tail Htail. constructor; [exact I|].
      apply Forall_app. split; [exact Hf|].
      apply Forall_forall. intros x Hx.
      rewrite forallb_forall in Htail. specialize (Htail x Hx).
      now destruct x. }
    destruct Hc as [->|[_ [e ->]]];
      [destruct (page_shows env n url expected_text)|]; cbn;
      ask_console env;
      destruct (chrome_quit env n) as [x|]; cbn;
      destruct (a + 1 <? max_attempts); cbn;
      ask_console env;
      try destruct (sleep_refusal env retry_delay_seconds); cbn;
      rewrite <- ?app_assoc, ?app_nil_r; cbn [app];
      match goal with
      | |- context [t ++ ChromeQuit n ?x :: ?pause] =>
          exists (Print (LogAttempt (a + 1) max_attempts) :: t ++ []),
            [ChromeQuit n x], pause
      | |- context [t ++ ?e1 :: ChromeQuit n ?x :: ?pause] =>
          exists (Print (LogAttempt (a + 1) max_attempts) :: t ++ [e1]),
            [ChromeQuit n x], pause
      end;
      (split; [cbn; rewrite <- ?app_assoc, ?app_nil_r; reflexivity|]);
      (split; [left; split; [reflexivity|split; [apply Hmid; reflexivity
                                                |eauto]]|auto]).
Qed.
End Shape.

(** The trace of the loop is made of the traces of its attempts. *)
Lemma rounds_pieces env url expected_text retry_delay_seconds max_attempts r :
  forall n a dr,
    exists ts,
      trace_of
        (rounds
           (loop_body url expected_text retry_delay_seconds max_attempts)
           r env (Store n a dr)) = List.concat ts /\
      Forall
        (fun t =>
           exists n',
             attempt_shape n' url expected_text retry_delay_seconds t)
        ts.
Proof.
  induction r as [|r IH]; intros n a dr.
  - exists []. split; [reflexivity|constructor].
  - pose proof (loop_body_shape env url expected_text retry_delay_seconds
                  max_attempts n a dr) as Hshape.
    cbn [rounds]. unfold bind.
    destruct (loop_body url expected_text retry_delay_seconds max_attempts
                env (Store n a dr)) as [[[[]|x] [n1 a1 d1]] t1];
      cbn [trace_of snd] in *.
    + destruct (IH n1 a1 d1) as (ts & Hts & Hall).
      destruct (rounds _ r env (Store n1 a1 d1)) as [[c2 s2] t2].
      cbn [trace_of snd] in *. subst t2.
      exists (t1 :: ts). split; [reflexivity|].
      constructor; eauto.
    + exists [t1]. split; [cbn; now rewrite app_nil_r|].
      repeat constructor. eauto.
Qed.

(** A run: the preamble, or what could be printed of it; the attempts;
    and then nothing more, or the report and the alert. *)
Lemma run_pieces config env s :
  trace_of (run_single_check config env s) = [] \/
  exists st pre ts tail,
    read_config env config = Ok st /\
    trace_of (run_single_check config env s) =
      pre ++ List.concat ts ++ tail /\
    forallb is_print pre = true /\
    Forall
      (fun t =>
         exists n',
           attempt_shape n' (st_url st) (st_expected_text st)
             (st_retry_delay_seconds st) t)
      ts /\
    (tail = [] \/
     exists s1,
       tail =
       Print LogStillDown ::
       trace_of
         (send_alert_email (st_email_config st) (st_url st)
            (st_expected_text st) env s1)).
Proof.
  rewrite run_single_check_reads.
  destruct (read_config env config) as [st|e]; [|now left].
  right. exists st.
  destruct (check_with_trace st env s)
    as [(e0 & _ & ->)|(_ & tail & Ht & Htail)].
  { exists (preamble_cut env st), [], []. cbn [trace_of snd List.concat app].
    rewrite app_nil_r. repeat split; auto. apply forallb_print_cut. }
  destruct (rounds_pieces env (st_url st) (st_expected_text st)
              (st_retry_delay_seconds st) (st_max_attempts st)
              (Z.to_nat (st_max_attempts st)) (sessions s) 0 (driver s))
    as (ts & Hts & Hall).
  exists (preamble st), ts, tail. rewrite Ht, Hts. repeat split; auto.
  destruct Htail as [(-> & _)|(_ & s1 & c & rest & Hsend & -> & _)];
    [now left|].
  right. exists s1. now rewrite Hsend.
Qed.

(** ** The browser is used one session at a time *)

(** The discipline of the browser: a session is asked for only when none
    is open, navigation and reading happen on the open session, and [quit]
    is called on the open session only.  [closes r] tells whether a call
    of [quit] that ended by [r] closed the session.  [None] is a breach;
    [Some cur] is the session left open. *)
Fixpoint browser_protocol (closes : option exn -> bool)
    (cur : option session) (t : trace) : option (option session) :=
  match t with
  | [] => Some cur
  | ChromeNew _ r :: t' =>
      match cur, r with
      | None, Ok d => browser_protocol closes (Some d) t'
      | None, Err _ => browser_protocol closes None t'
      | Some _, _ => None
      end
  | ChromeGet d _ _ :: t' | ChromePageSource d _ :: t' =>
      match cur with
      | Some d' =>
          if Nat.eqb d d' then browser_protocol closes cur t' else None
      | None => None
      end
  | ChromeQuit d r :: t' =>
      match cur with
      | Some d' =>
          if Nat.eqb d d' then
            browser_protocol closes (if closes r then None else cur) t'
          else None
      | None => None
      end
  | _ :: t' => browser_protocol closes cur t'
  end.

(** The program is done with a session once it has called [quit] on it,
    however the call ended; the browser is gone when [quit] returned. *)
Definition quit_called (r : option exn) : bool := true.
Definition quit_returned (r : option exn) : bool :=
  match r with
  | None => true
  | Some _ => false
  end.

Lemma browser_protocol_app closes cur t1 t2 :
  browser_protocol closes cur (t1 ++ t2) =
  match browser_protocol closes cur t1 with
  | Some cur' => browser_protocol closes cur' t2
  | None => None
  end.
Proof.
  revert cur. induction t1 as [|e t1 IH]; intros cur; [reflexivity|].
  destruct e; cbn; auto.
  - destruct cur, r; auto.
  - destruct cur; auto. destruct (Nat.eqb d s); auto.
  - destruct cur; auto. destruct (Nat.eqb d s); auto.
  - destruct cur; auto. destruct (Nat.eqb d s); auto.
Qed.

Lemma browser_protocol_check closes d url expected_text t :
  Forall (check_step d url expected_text) t ->
  browser_protocol closes (Some d) t = Some (Some d).
Proof.
  induction 1 as [|e t He Ht IH]; [reflexivity|].
  destruct e; cbn in *; try contradiction; auto.
  - destruct He as [-> _]. now rewrite Nat.eqb_refl.
  - subst. now rewrite Nat.eqb_refl.
Qed.

Lemma browser_protocol_mailing closes cur t :
  forallb mailing t = true -> browser_protocol closes cur t = Some cur.
Proof.
  induction t as [|e t IH]; [reflexivity|].
  cbn [forallb]. intros H. apply andb_prop in H as [He Ht].
  destruct e; try discriminate; cbn; auto.
Qed.

Lemma browser_protocol_prints closes cur t :
  forallb is_print t = true -> browser_protocol closes cur t = Some cur.
Proof.
  induction t as [|e t IH]; [reflexivity|].
  cbn [forallb]. intros H. apply andb_prop in H as [He Ht].
  destruct e; try discriminate; cbn; auto.
Qed.

Lemma browser_protocol_attempt n url expected_text retry_delay_seconds t :
  attempt_shape n url expected_text retry_delay_seconds t ->
  browser_protocol quit_called None t = Some None.
Proof.
  intros (r & mid & q & pause & -> & Hr & Hp).
  assert (Hpause : browser_protocol quit_called None pause = Some None)
    by (destruct Hp as [->|[->| ->]]; reflexivity).
  destruct Hr as [(-> & Hmid & x & ->)|((e & ->) & Hmid & ->)].
  - cbn [browser_protocol]. rewrite browser_protocol_app.
    rewrite (browser_protocol_check _ _ _ _ _ Hmid). cbn.
    now rewrite Nat.eqb_refl.
  - cbn [browser_protocol]. rewrite browser_protocol_app.
    now rewrite (browser_protocol_prints _ _ _ Hmid).
Qed.

(** When no call of [quit] raised, a session on which [quit] was called is
    closed. *)
Lemma browser_protocol_quits t :
  (forall d e, ~ In (ChromeQuit d (Some e)) t) ->
  forall cur,
    browser_protocol quit_returned cur t =
    browser_protocol quit_called cur t.
Proof.
  induction t as [|x t IH]; intros Hq cur; [reflexivity|].
  assert (Ht : forall d e, ~ In (ChromeQuit d (Some e)) t)
    by (intros d e H; apply (Hq d e); now right).
  destruct x; cbn; auto.
  - destruct cur, r; auto.
  - destruct cur; auto. destruct (Nat.eqb d s); auto.
  - destruct cur; auto. destruct (Nat.eqb d s); auto.
  - destruct cur; auto. destruct (Nat.eqb d s); auto.
    destruct r as [e|]; cbn; auto.
    exfalso. apply (Hq d e). now left.
Qed.

(** X4.  In every run the browser is used one session at a time: every
    navigation and every reading of the page is made on the session that
    was opened last; [quit] is called on that session, and on no other,
    before another session is asked for and before the run ends (normally,
    by [return], or by an exception); and nothing is asked of a session
    after [quit] was called on it.  So, when no call of [quit] raises, a
    new session is asked for only when none is open, and no session is
    left open when the run ends. *)
Theorem run_uses_one_session_at_a_time config env s :
  let t := trace_of (run_single_check config env s) in
  browser_protocol quit_called None t = Some None /\
  ((forall d e, ~ In (ChromeQuit d (Some e)) t) ->
   browser_protocol quit_returned None t = Some None).
Proof.
  cbn zeta.
  assert (Hcalled :
    browser_protocol quit_called None
      (trace_of (run_single_check config env s)) = Some None).
  { destruct (run_pieces config env s)
      as [->|(st & pre & ts & tail & _ & -> & Hpre & Hall & Htail)];
      [reflexivity|].
    rewrite browser_protocol_app, (browser_protocol_prints _ _ _ Hpre).
    rewrite browser_protocol_app.
    assert (Hts : browser_protocol quit_called None (List.concat ts) =
                  Some None).
    { induction Hall as [|t ts (n' & Ht) _ IH]; [reflexivity|].
      cbn [List.concat]. rewrite browser_protocol_app.
      now rewrite (browser_protocol_attempt _ _ _ _ _ Ht). }
    rewrite Hts.
    destruct Htail as [->|(s1 & ->)]; [reflexivity|].
    destruct (send_alert_email_run (st_email_config st) (st_url st)
                (st_expected_text st) env s1)
      as (c & rest & -> & Hrest & _).
    cbn. now apply browser_protocol_mailing. }
  split; [exact Hcalled|].
  intros Hq. now rewrite browser_protocol_quits.
Qed.

(** With the broken browser, whose sessions do not quit cleanly, [quit] is
    still called on each session before the next one is asked for. *)
Example broken_browser_sessions :
  let t :=
    trace_of (run_single_check create_default_config_dict broken_browser
                store0) in
  browser_protocol quit_called None t = Some None /\
  browser_protocol quit_returned None t = None.
Proof. vm_compute. auto. Qed.

(** ** A run asks only for what the configuration says *)

Definition as_configured (st : settings) (e : event) : Prop :=
  match e with
  | ChromeNew options _ => options = chrome_options
  | ChromeGet _ u _ => u = st_url st
  | CallIsAppAlive _ u x => u = st_url st /\ x = st_expected_text st
  | Sleep seconds => seconds = st_retry_delay_seconds st
  | CallSendAlertEmail c u x =>
      c = st_email_config st /\ u = st_url st /\ x = st_expected_text st
  | _ => True
  end.

Lemma as_configured_prints st t :
  forallb is_print t = true -> Forall (as_configured st) t.
Proof.
  intros H. apply Forall_forall. intros x Hx.
  rewrite forallb_forall in H. specialize (H x Hx). now destruct x.
Qed.

Lemma as_configured_attempt st n t :
  attempt_shape n (st_url st) (st_expected_text st)
    (st_retry_delay_seconds st) t ->
  Forall (as_configured st) t.
Proof.
  intros (r & mid & q & pause & -> & Hr & Hp).
  constructor; [reflexivity|].
  rewrite !Forall_app. repeat split.
  - destruct Hr as [(_ & Hmid & _)|(_ & Hmid & _)];
      [|now apply as_configured_prints].
    eapply Forall_impl; [|exact Hmid].
    intros e He. destruct e; cbn in *; intuition.
  - destruct Hr as [(_ & _ & x & ->)|(_ & _ & ->)]; repeat constructor.
  - destruct Hp as [->|[->| ->]]; repeat constructor.
Qed.

Lemma run_as_configured config env s st :
  read_config env config = Ok st ->
  Forall (as_configured st) (trace_of (run_single_check config env s)).
Proof.
  intros Hread.
  destruct (run_pieces config env s)
    as [->|(st' & pre & ts & tail & Hread' & -> & Hpre & Hall & Htail)];
    [constructor|].
  rewrite Hread in Hread'. injection Hread' as <-.
  rewrite !Forall_app. repeat split.
  - now apply as_configured_prints.
  - apply Forall_concat. eapply Forall_impl; [|exact Hall].
    intros t (n' & Ht). eapply as_configured_attempt; eauto.
  - destruct Htail as [->|(s1 & ->)]; [constructor|].
    destruct (send_alert_email_run (st_email_config st) (st_url st)
                (st_expected_text st) env s1) as (c & rest & -> & Hrest & _).
    cbn. repeat constructor; auto.
    rewrite forallb_forall in Hrest. apply Forall_forall.
    intros e He. specialize (Hrest e He). now destruct e.
Qed.

(** X5.  Every request of a run is the one the configuration describes:
    each browser is started with the three options of [create_webdriver]
    (headless, no sandbox, no shared memory), each navigation and each call
    of [is_app_alive] is for the configured URL and expected text, each
    pause lasts [retry_delay_seconds], and [send_alert_email] is called
    with the configured notification settings, URL and expected text. *)
Theorem run_asks_as_configured config env s st :
  read_config env config = Ok st ->
  Forall (as_configured st) (trace_of (run_single_check config env s)).
Proof. apply run_as_configured. Qed.

Lemma run_asks_as_configured_witness :
  Forall (as_configured default_settings)
    (trace_of
       (run_single_check create_default_config_dict (calm (py "Hello"))
          store0)).
Proof.
  exact (run_asks_as_configured create_default_config_dict
           (calm (py "Hello")) store0 default_settings eq_refl).
Defined.

(** ** The SMTP session *)

Inductive smtp_state :=
| SmtpIdle
| SmtpConnected
| SmtpGreeted
| SmtpSecured
| SmtpLoggedIn
| SmtpFinished
| SmtpOver.

(** The discipline of the SMTP session: connect, EHLO, STARTTLS, login,
    send, each one only after the one before returned; after a failure or
    after the message nothing but the closing of the session; and once the
    session is closed, or the connection was refused, nothing at all
    ([SmtpOver]): there is no second session.  [None] is a breach. *)
Fixpoint smtp_protocol (st : smtp_state) (t : trace) : option smtp_state :=
  match t with
  | [] => Some st
  | SmtpConnect _ _ r :: t' =>
      match st, r with
      | SmtpIdle, None => smtp_protocol SmtpConnected t'
      | SmtpIdle, Some _ => smtp_protocol SmtpOver t'
      | _, _ => None
      end
  | SmtpEhlo r :: t' =>
      match st, r with
      | SmtpConnected, None => smtp_protocol SmtpGreeted t'
      | SmtpConnected, Some _ => smtp_protocol SmtpFinished t'
      | _, _ => None
      end
  | SmtpStartTls r :: t' =>
      match st, r with
      | SmtpGreeted, None => smtp_protocol SmtpSecured t'
      | SmtpGreeted, Some _ => smtp_protocol SmtpFinished t'
      | _, _ => None
      end
  | SmtpLogin _ _ r :: t' =>
      match st, r with
      | SmtpSecured, None => smtp_protocol SmtpLoggedIn t'
      | SmtpSecured, Some _ => smtp_protocol SmtpFinished t'
      | _, _ => None
      end
  | SmtpSendMessage _ _ :: t' =>
      match st with
      | SmtpLoggedIn => smtp_protocol SmtpFinished t'
      | _ => None
      end
  | SmtpExit _ :: t' =>
      match st with
      | SmtpIdle | SmtpOver => None
      | _ => smtp_protocol SmtpOver t'
      end
  | _ :: t' => smtp_protocol st t'
  end.

(** What the delivery of [m] may ask the server. *)
Definition deliver_step (m : mail) (e : event) : Prop :=
  match e with
  | SmtpConnect host port _ => host = mail_host m /\ port = mail_port m
  | SmtpLogin username password _ =>
      username = mail_username m /\ password = mail_password m
  | SmtpSendMessage msg _ => msg = mail_message m
  | SmtpEhlo _ | SmtpStartTls _ | SmtpExit _ | Print _ => True
  | _ => False
  end.

Lemma deliver_steps m env s :
  smtp_protocol SmtpIdle (trace_of (deliver m env s)) = Some SmtpOver /\
  Forall (deliver_step m) (trace_of (deliver m env s)) /\
  exists rest,
    trace_of (deliver m env s) =
    SmtpConnect (mail_host m) (mail_port m)
      (smtp_connect env (mail_host m) (mail_port m)) :: rest.
Proof.
  unfold deliver, with_smtplib_SMTP, server_ehlo, server_starttls,
    server_login, server_send_message, Exception.
  unfold_m.
  destruct (smtp_connect env (mail_host m) (mail_port m)); cbn;
    [ask_console env;
     (split; [reflexivity|split; [repeat constructor|eauto]])|].
  destruct (smtp_ehlo env); cbn;
    [destruct (smtp_exit env); cbn; ask_console env;
     (split; [reflexivity|split; [repeat constructor|eauto]])|].
  destruct (smtp_starttls env); cbn;
    [destruct (smtp_exit env); cbn; ask_console env;
     (split; [reflexivity|split; [repeat constructor|eauto]])|].
  destruct (smtp_login env (mail_username m) (mail_password m)); cbn;
    [destruct (smtp_exit env); cbn; ask_console env;
     (split; [reflexivity|split; [repeat constructor|eauto]])|].
  destruct (smtp_send_message env (mail_message m)); cbn;
    destruct (smtp_exit env); cbn; ask_console env;
    (split; [reflexivity|split; [repeat constructor|eauto]]).
Qed.

Lemma send_alert_email_trace email_config url expected_text env s :
  let call := CallSendAlertEmail email_config url expected_text in
  let t := trace_of (send_alert_email email_config url expected_text env s) in
  t = [call] \/
  t = [call; Print LogEmailDisabled] /\ enabled_of email_config = Ok false \/
  exists m,
    enabled_of email_config = Ok true /\
    compose env email_config url expected_text = Ok m /\
    t = call :: trace_of (deliver m env s).
Proof.
  cbn zeta. rewrite send_alert_email_steps. cbn zeta.
  destruct (enabled_of email_config) as [[|]|e]; auto.
  destruct (compose env email_config url expected_text) as [m|e]; auto.
  right. right. exists m. repeat split.
  now destruct (deliver m env s) as [[[[]|[]] ?] ?].
Qed.

(** X6.  [send_alert_email] opens at most one SMTP session, and keeps its
    order whatever the server answers: EHLO only once connected, STARTTLS
    only after EHLO returned, the login (and so the credentials) only
    after STARTTLS returned, the message only after the login returned;
    after a failure nothing more is asked of the server but the closing of
    the session; a session that was opened is closed exactly once; and once
    it is closed, or when the connection was refused, nothing more is
    asked: the call ends with no SMTP call at all, or with a session that
    is over. *)
Theorem alert_keeps_the_smtp_order email_config url expected_text env s :
  let t := trace_of (send_alert_email email_config url expected_text env s) in
  smtp_protocol SmtpIdle t = Some SmtpIdle /\ count is_smtp t = 0%nat \/
  smtp_protocol SmtpIdle t = Some SmtpOver /\ (1 <= count is_smtp t)%nat.
Proof.
  cbn zeta.
  destruct (send_alert_email_trace email_config url expected_text env s)
    as [->|[(-> & _)|(m & _ & _ & ->)]]; try (left; split; reflexivity).
  right. destruct (deliver_steps m env s) as (Hp & _ & rest & Hrest).
  split; [exact Hp|]. rewrite Hrest, !count_cons. cbn. lia.
Qed.

(** The message and the session that [email_config] describes. *)
Definition smtp_as_configured (email_config url expected_text : json)
    (e : event) : Prop :=
  match e with
  | SmtpConnect host port _ =>
      py_getitem email_config (py "smtp_host") = Ok host /\
      py_getitem email_config (py "smtp_port") = Ok port
  | SmtpLogin username password _ =>
      py_getitem email_config (py "smtp_username") = Ok username /\
      py_getitem email_config (py "smtp_password") = Ok password
  | SmtpSendMessage msg _ =>
      py_getitem email_config (py "from") = Ok (msg_from msg) /\
      (exists to,
         py_getitem email_config (py "to") = Ok to /\
         py_join (py ", ") to = Ok (msg_to msg)) /\
      py_get email_config (py "subject") (JStr (py "Application is DOWN")) =
        Ok (msg_subject msg) /\
      msg_body_url msg = url /\
      msg_body_expected_text msg = expected_text
  | _ => True
  end.

Lemma compose_inv env email_config url expected_text m :
  compose env email_config url expected_text = Ok m ->
  py_getitem email_config (py "smtp_host") = Ok (mail_host m) /\
  py_getitem email_config (py "smtp_port") = Ok (mail_port m) /\
  py_getitem email_config (py "smtp_username") = Ok (mail_username m) /\
  py_getitem email_config (py "smtp_password") = Ok (mail_password m) /\
  smtp_as_configured email_config url expected_text
    (SmtpSendMessage (mail_message m) None).
Proof.
  unfold compose, bind_result.
  destruct (py_getitem email_config (py "smtp_host")); [|discriminate].
  destruct (py_getitem email_config (py "smtp_port")); [|discriminate].
  destruct (py_getitem email_config (py "smtp_username")); [|discriminate].
  destruct (py_getitem email_config (py "smtp_password")); [|discriminate].
  destruct (py_getitem email_config (py "from")) eqn:Hfrom; [|discriminate].
  destruct (py_getitem email_config (py "to")) as [to|] eqn:Hto;
    [|discriminate].
  destruct (py_get email_config (py "subject") _) eqn:Hsubject;
    [|discriminate].
  destruct (py_join (py ", ") to) eqn:Hjoin; [|discriminate].
  destruct (json_formattable (int_str env) url
            && json_formattable (int_str env) expected_text);
    [|discriminate].
  destruct (format_encodable url && format_encodable expected_text);
    [|discriminate].
  intros [= <-]. cbn -[py]. repeat split; eauto.
Qed.

(** X7.  Whatever [send_alert_email] asks of the mail server comes from
    the notification configuration: it connects to [smtp_host] and
    [smtp_port], logs in with [smtp_username] and [smtp_password], and the
    message it sends has the configured sender, the recipients joined by a
    comma and a space, the configured subject, or "Application is DOWN"
    when there is none, and a body about the given URL and expected
    text. *)
Theorem alert_asks_as_configured email_config url expected_text env s :
  Forall (smtp_as_configured email_config url expected_text)
    (trace_of (send_alert_email email_config url expected_text env s)).
Proof.
  destruct (send_alert_email_trace email_config url expected_text env s)
    as [->|[(-> & _)|(m & _ & Hm & ->)]]; try (repeat constructor).
  apply compose_inv in Hm as (H1 & H2 & H3 & H4 & H5).
  eapply Forall_impl; [|apply deliver_steps].
  intros e He. destruct e; cbn in *; try exact I.
  - destruct He as [-> ->]. auto.
  - destruct He as [-> ->]. auto.
  - subst. exact H5.
Qed.

(** ** Edges of the configuration *)

(** X8.  A configuration dict without "url" stops [run_single_check] at
    once with [KeyError] "url", whether it has an "expected_text" or not;
    one with "url" and without "expected_text" stops it with [KeyError]
    "expected_text": the error names the first of the two keys that is
    missing.  Nothing is printed, no browser is started and no alert is
    sent. *)
Theorem missing_required_key_stops_the_run d env s :
  (dict_lookup (py "url") d = None ->
   run_single_check (JObj d) env s =
   (Abrupt (Raise (KeyError (py "url"))), s, [])) /\
  (forall url,
     dict_lookup (py "url") d = Some url ->
     dict_lookup (py "expected_text") d = None ->
     run_single_check (JObj d) env s =
     (Abrupt (Raise (KeyError (py "expected_text"))), s, [])).
Proof.
  rewrite run_single_check_reads.
  unfold read_config, bind_result, py_getitem.
  split.
  - intros ->. reflexivity.
  - intros url -> ->. reflexivity.
Qed.

Lemma missing_required_key_stops_the_run_witness :
  run_single_check (JObj [(py "url", the_url)]) (calm (py "Hello")) store0 =
  (Abrupt (Raise (KeyError (py "expected_text"))), store0, []).
Proof.
  exact (proj2
           (missing_required_key_stops_the_run [(py "url", the_url)]
              (calm (py "Hello")) store0)
           the_url eq_refl eq_refl).
Defined.

(** A configuration with neither key, and one with the URL only. *)
Example missing_keys :
  run_single_check (JObj []) (calm (py "Hello")) store0 =
  (Abrupt (Raise (KeyError (py "url"))), store0, []) /\
  run_single_check (JObj [(py "url", the_url)]) (calm (py "Hello")) store0 =
  (Abrupt (Raise (KeyError (py "expected_text"))), store0, []).
Proof. split; reflexivity. Qed.

Lemma read_config_defaults env d st :
  read_config env (JObj d) = Ok st ->
  (dict_lookup (py "retry_delay_seconds") d = None ->
   st_retry_delay_seconds st = 60) /\
  (dict_lookup (py "max_attempts") d = None -> st_max_attempts st = 2).
Proof.
  unfold read_config, bind_result.
  destruct (py_getitem (JObj d) (py "url")); [|discriminate].
  destruct (py_getitem (JObj d) (py "expected_text")); [|discriminate].
  unfold py_get.
  destruct (dict_lookup (py "retry_delay_seconds") d) as [v|];
    cbn [py_int];
    [destruct (py_int (int_of_str env) v) as [delay|]; [|discriminate]|];
    (destruct (dict_lookup (py "max_attempts") d) as [w|];
     cbn [py_int];
     [destruct (py_int (int_of_str env) w) as [maxa|]; [|discriminate]|]);
    destruct (dict_lookup (py "email") d);
    intros Heq; inversion Heq; subst;
    cbn [st_retry_delay_seconds st_max_attempts];
    split; intros; try discriminate; reflexivity.
Qed.

(** X9.  The defaults of [run_single_check]: in a configuration without
    "max_attempts" the page is checked at most 2 times, and in one without
    "retry_delay_seconds" every pause lasts 60 seconds. *)
Theorem missing_settings_take_their_defaults d env s :
  let t := trace_of (run_single_check (JObj d) env s) in
  (dict_lookup (py "max_attempts") d = None ->
   (count is_check t <= 2)%nat) /\
  (dict_lookup (py "retry_delay_seconds") d = None ->
   forall seconds, In (Sleep seconds) t -> seconds = 60).
Proof.
  cbn zeta.
  destruct (read_config env (JObj d)) as [st|e] eqn:Hread.
  - destruct (read_config_defaults env d st Hread) as (Hdelay & Hmax).
    split.
    + intros H. rewrite run_single_check_reads, Hread.
      destruct (check_with_checks st env s) as (Hle & _).
      rewrite (Hmax H) in Hle. exact Hle.
    + intros H seconds Hin.
      pose proof (run_as_configured (JObj d) env s st Hread) as Hall.
      rewrite Forall_forall in Hall. specialize (Hall _ Hin). cbn in Hall.
      now rewrite Hall, (Hdelay H).
  - rewrite run_single_check_reads, Hread. cbn. split; [lia|tauto].
Qed.

(** X10.  A negative "max_attempts" is treated as zero: when the preamble
    can be printed (the console can encode the URL and the expected text,
    the interpreter can write the numbers), no browser is started, the
    page is not checked, there is no pause, and the run reports the
    application down and calls the alert. *)
Theorem negative_max_attempts_means_none env config st s :
  read_config env config = Ok st ->
  st_max_attempts st < 0 ->
  preamble_fault env st = None ->
  let run := run_single_check config env s in
  let alert :=
    send_alert_email (st_email_config st) (st_url st) (st_expected_text st)
      env (Store (sessions s) 0 (driver s)) in
  run =
    (outcome alert, final_store alert,
     preamble st ++ Print LogStillDown :: trace_of alert) /\
  count is_attempt (trace_of run) = 0%nat /\
  count is_check (trace_of run) = 0%nat /\
  count is_pause (trace_of run) = 0%nat /\
  count is_notify (trace_of run) = 1%nat.
Proof.
  intros Hread Hmax Hpre. cbn zeta.
  rewrite run_single_check_reads, Hread.
  apply no_attempt_run; auto. lia.
Qed.

Lemma negative_max_attempts_means_none_witness :
  let config :=
    JObj [ (py "url", the_url); (py "expected_text", the_text);
           (py "max_attempts", JInt (-3)) ] in
  let st := Settings the_url the_text 60 (-3) (JObj []) in
  let run := run_single_check config (calm (py "Hello")) store0 in
  let alert :=
    send_alert_email (JObj []) the_url the_text (calm (py "Hello"))
      (Store 0 0 None) in
  run =
    (outcome alert, final_store alert,
     preamble st ++ Print LogStillDown :: trace_of alert) /\
  count is_attempt (trace_of run) = 0%nat /\
  count is_check (trace_of run) = 0%nat /\
  count is_pause (trace_of run) = 0%nat /\
  count is_notify (trace_of run) = 1%nat.
Proof.
  exact (negative_max_attempts_means_none (calm (py "Hello"))
           (JObj [ (py "url", the_url); (py "expected_text", the_text);
                   (py "max_attempts", JInt (-3)) ])
           (Settings the_url the_text 60 (-3) (JObj [])) store0
           eq_refl ltac:(cbn; lia) eq_refl).
Defined.

(** ** The first attempt *)


(** A run whose first attempt finds the page alive: when the preamble,
    the line of the first attempt and the success line can be printed, the
    run stops there. *)
Lemma success_at_first st env s :
  1 <= st_max_attempts st ->
  preamble_fault env st = None ->
  printable env (LogAttempt 1 (st_max_attempts st)) = true ->
  printable env LogAlive = true ->
  attempt_alive env (st_url st) (st_expected_text st) (sessions s) = true ->
  exists s1 t1,
    check_with st env s = (Normal tt, s1, preamble st ++ t1) /\
    attempt_counts (sessions s) (opened env (sessions s))
      (opened env (sessions s)) t1 /\
    existsb is_alive t1 = true.
Proof.
  intros Hmax Hpre Hfirst Hsaid Halive.
  rewrite check_with_steps, Hpre, loop_rounds.
  destruct (Z.to_nat (st_max_attempts st)) as [|r] eqn:Hr; [lia|].
  cbn [rounds]. unfold bind.
  destruct (loop_body_any env (st_url st) (st_expected_text st)
              (st_retry_delay_seconds st) (st_max_attempts st)
              (sessions s) 0 (driver s))
    as (c & s1 & t1 & -> & _ & _ & _ & Hcounts & Ha & Hend).
  change (0 + 1) with 1 in Hcounts, Ha.
  rewrite Hfirst in Hcounts, Ha. rewrite andb_true_r in Hcounts.
  rewrite Halive in Ha.
  destruct (Hend Hsaid) as (_ & Hret). rewrite (Hret Ha).
  exists s1, t1. auto.
Qed.

Section FirstAttempt.
Variables (env : environment) (st : settings) (s : store).
Hypothesis some_attempt : 1 <= st_max_attempts st.
Hypothesis console : console_prints env st.

Let url := st_url st.
Let expected_text := st_expected_text st.
Let delay := st_retry_delay_seconds st.
Let body := loop_body url expected_text delay (st_max_attempts st).
Let alive := attempt_alive env url expected_text (sessions s).

End FirstAttempt.



(** X12.  The empty expected text is found in every page: when the first
    page loads and the preamble, the line of the first attempt and the
    success line can be printed, the run succeeds at its first attempt
    whatever the page shows, and the alert is not called. *)
Theorem empty_expected_text_is_always_found env config st s page_source :
  read_config env config = Ok st ->
  st_expected_text st = JStr [] ->
  1 <= st_max_attempts st ->
  chrome_new env (sessions s) = None ->
  chrome_get env (sessions s) (st_url st) = None ->
  chrome_page_source env (sessions s) = Ok page_source ->
  preamble_fault env st = None ->
  printable env (LogAttempt 1 (st_max_attempts st)) = true ->
  printable env LogAlive = true ->
  let run := run_single_check config env s in
  outcome run = Normal tt /\
  count is_attempt (trace_of run) = 1%nat /\
  count is_notify (trace_of run) = 0%nat.
Proof.
  intros Hread Htext Hmax Hnew Hget Hpage Hpre Pfirst Palive. cbn zeta.
  rewrite run_single_check_reads, Hread.
  assert (Ha : attempt_alive env (st_url st) (st_expected_text st)
                 (sessions s) = true).
  { unfold attempt_alive, opened, page_shows.
    rewrite Hnew, Hget, Hpage, Htext. now destruct page_source. }
  destruct (success_at_first st env s Hmax Hpre Pfirst Palive Ha)
    as (s1 & t1 & -> & [B1 B2 B3 B4 B5 B6] & _).
  cbn [trace_of outcome fst snd].
  unfold preamble. read_trace. rewrite B1, B3. auto.
Qed.

Lemma empty_expected_text_is_always_found_witness :
  let config :=
    JObj [ (py "url", the_url); (py "expected_text", JStr []) ] in
  let run := run_single_check config (calm (py "Hello")) store0 in
  outcome run = Normal tt /\
  count is_attempt (trace_of run) = 1%nat /\
  count is_notify (trace_of run) = 0%nat.
Proof.
  exact (empty_expected_text_is_always_found (calm (py "Hello"))
           (JObj [ (py "url", the_url); (py "expected_text", JStr []) ])
           (Settings the_url (JStr []) 60 2 (JObj [])) store0 (py "Hello")
           eq_refl eq_refl ltac:(cbn; lia) eq_refl eq_refl eq_refl
           eq_refl eq_refl eq_refl).
Defined.



(** ** Edges of the notification configuration *)

(** X14.  "enabled" is read by its truth value, as [not] reads it.  The
    alert is disabled exactly when the value is falsy ([false], [null], 0,
    an empty string, list or dict, or no value at all): then nothing is
    asked of a mail server and the function returns.  Any other value, the
    string "false" among them, enables the alert: the settings are read,
    and either their composition raises, and the exception leaves the
    function, or the mail server named by "smtp_host" and "smtp_port" is
    contacted. *)
Theorem enabled_is_read_by_truth_value
    email_config url expected_text env s enabled :
  py_get email_config (py "enabled") (JBool false) = Ok enabled ->
  let run := send_alert_email email_config url expected_text env s in
  (In (Print LogEmailDisabled) (trace_of run) <-> truthy enabled = false) /\
  (truthy enabled = false ->
   outcome run = Normal tt /\ count is_smtp (trace_of run) = 0%nat) /\
  (truthy enabled = true ->
   match compose env email_config url expected_text with
   | Err e =>
       run =
       (Abrupt (Raise e), s,
        [CallSendAlertEmail email_config url expected_text])
   | Ok m =>
       In (SmtpConnect (mail_host m) (mail_port m)
             (smtp_connect env (mail_host m) (mail_port m)))
          (trace_of run)
   end).
Proof.
  intros Hget. cbn zeta. rewrite send_alert_email_steps.
  unfold enabled_of, bind_result. rewrite Hget. cbn zeta.
  destruct (truthy enabled).
  - split; [|split; [discriminate|]].
    + split; [|discriminate].
      destruct (compose env email_config url expected_text) as [m|e].
      * destruct (deliver_run m env s) as (t & line & Ht & Hline & ->).
        assert (Hl : line <> LogEmailDisabled)
          by (destruct (smtp_accepts env m);
              [|destruct Hline as (e & Hline)]; congruence).
        assert (Hno : ~ In (Print LogEmailDisabled) t).
        { intros H. rewrite forallb_forall in Ht. specialize (Ht _ H).
          discriminate. }
        destruct (printable env line); cbn; intros [H|H];
          try discriminate; try contradiction.
        apply in_app_or in H as [H|[H|[]]]; [contradiction|congruence].
      * cbn. intros [H|[]]. discriminate.
    + intros _. destruct (compose env email_config url expected_text) as [m|e];
        [|reflexivity].
      destruct (deliver_steps m env s) as (_ & _ & rest & Hrest).
      destruct (deliver m env s) as [[[[]|[| |]] ?] ?];
        cbn [trace_of snd] in *; subst; right; now left.
  - cbn. intuition discriminate.
Qed.

Lemma enabled_is_read_by_truth_value_witness :
  let email_config := JObj [(py "enabled", JStr (py "false"))] in
  let run :=
    send_alert_email email_config the_url the_text (calm (py "Hello"))
      store0 in
  (In (Print LogEmailDisabled) (trace_of run) <->
   truthy (JStr (py "false")) = false) /\
  (truthy (JStr (py "false")) = false ->
   outcome run = Normal tt /\ count is_smtp (trace_of run) = 0%nat) /\
  (truthy (JStr (py "false")) = true ->
   run =
   (Abrupt (Raise (KeyError (py "smtp_host"))), store0,
    [CallSendAlertEmail email_config the_url the_text])).
Proof.
  exact (enabled_is_read_by_truth_value
           (JObj [(py "enabled", JStr (py "false"))]) the_url the_text
           (calm (py "Hello")) store0 (JStr (py "false")) eq_refl).
Defined.



(** With the alert section [null] and a page that is down, the run ends
    with [AttributeError]. *)
Example null_email_section_run :
  outcome
    (run_single_check
       (JObj [ (py "url", the_url); (py "expected_text", the_text);
               (py "email", JNull) ])
       (calm (py "Hello")) store0) =
  Abrupt (Raise AttributeError).
Proof. vm_compute. reflexivity. Qed.

(** ** Success ends the run *)



(** * The start of the program: the configuration file

    [get_base_dir], [ensure_config_exists], [load_config] and [main] talk
    to the operating system: the interpreter's [sys] attributes, the file
    system, the console.  Its answers are the [host]; what the program asks
    of it is recorded in a trace of [host_event]s, in which the events of
    [run_single_check] are embedded.  [sys.exit] raises [SystemExit], which
    is not an [Exception]: an ending of its own. *)

Inductive host_log :=
| HostConfigNotFound
| HostExpectedPath (config_path : str)
| HostCreatingTemplate
| HostTemplateCreated
| HostPleaseEdit
| HostTemplateFailed (e : exn)
| HostFatal (e : exn).

(** [console_encodes] tells whether the encoding of the console has every
    character of a line of these functions. *)
Record host := Host {
  sys_frozen : bool;
  sys_executable : str;
  module_file : str;
  os_path_dirname : str -> str;
  os_path_abspath : str -> str;
  os_path_join : str -> str -> str;
  os_path_exists : str -> bool;
  write_json : str -> json -> option exn;
  read_json : str -> result json;
  stdin_input : nat -> option exn;
  console_encodes : host_log -> bool
}.

Inductive host_event :=
| HostPrint (line : host_log)
| PathExists (path : str) (answer : bool)
| WriteJson (path : str) (data : json) (r : option exn)
| ReadJson (path : str) (r : result json)
| Input (prompt : str) (r : option exn)
| SysExit (code : Z)
| Check (e : event).

(** How a statement of these functions ends.  [Stalls] is the loop of
    [run_single_check] out of fuel, which does not happen. *)
Inductive ending (A : Type) :=
| Falls (a : A)
| Returns
| Raises (e : exn)
| Exits (code : Z)
| Stalls.
Arguments Falls {A} a.
Arguments Returns {A}.
Arguments Raises {A} e.
Arguments Exits {A} code.
Arguments Stalls {A}.

(** The store of the check and the number of calls of [input] so far. *)
Record host_store := HostStore {
  check_store : store;
  inputs : nat
}.

Definition HM (A : Type) : Type :=
  host -> environment -> host_store -> ending A * host_store * list host_event.

Definition hret {A} (a : A) : HM A := fun _ _ s => (Falls a, s, []).

Definition hbind {A B} (m : HM A) (k : A -> HM B) : HM B := fun h env s =>
  match m h env s with
  | (Falls a, s1, t1) =>
      match k a h env s1 with
      | (c, s2, t2) => (c, s2, t1 ++ t2)
      end
  | (Returns, s1, t1) => (Returns, s1, t1)
  | (Raises e, s1, t1) => (Raises e, s1, t1)
  | (Exits code, s1, t1) => (Exits code, s1, t1)
  | (Stalls, s1, t1) => (Stalls, s1, t1)
  end.

Declare Scope host_scope.
Notation "x <- m ;; k" := (hbind m (fun x => k))
  (at level 61, m at next level, right associativity) : host_scope.
Notation "m ;; k" := (hbind m (fun _ => k))
  (at level 61, right associativity) : host_scope.
Local Open Scope host_scope.

Definition hask : HM host := fun h _ s => (Falls h, s, []).
Definition hemit (e : host_event) : HM unit := fun _ _ s => (Falls tt, s, [e]).
Definition hraise {A} (e : exn) : HM A := fun _ _ s => (Raises e, s, []).
Definition hreturn {A} : HM A := fun _ _ s => (Returns, s, []).

(** The lines that are ASCII whatever the machine: the others carry the
    path of the configuration file or the message of an exception. *)
Definition host_plain (line : host_log) : bool :=
  match line with
  | HostExpectedPath _ | HostTemplateFailed _ | HostFatal _ => false
  | _ => true
  end.

Definition host_printable (h : host) (line : host_log) : bool :=
  host_plain line || console_encodes h line.

(** [print(...)], as in the check: the line is written, or
    [UnicodeEncodeError] is raised and nothing is written. *)
Definition hprint (line : host_log) : HM unit := fun h _ s =>
  if host_printable h line then (Falls tt, s, [HostPrint line])
  else (Raises UnicodeEncodeError, s, []).

(** [sys.exit(code)]. *)
Definition sys_exit {A} (code : Z) : HM A := fun _ _ s =>
  (Exits code, s, [SysExit code]).

(** [input(prompt)]: the console answers, or the call raises (there is no
    console, or its input is closed). *)
Definition input (prompt : str) : HM unit := fun h _ s =>
  let n := inputs s in
  let s' := HostStore (check_store s) (S n) in
  match stdin_input h n with
  | None => (Falls tt, s', [Input prompt None])
  | Some e => (Raises e, s', [Input prompt (Some e)])
  end.

Definition path_exists (path : str) : HM bool :=
  h <- hask ;;
  hemit (PathExists path (os_path_exists h path)) ;;
  hret (os_path_exists h path).

(** [with open(path, "w", encoding="utf-8") as f: json.dump(data, f,
    indent=2)]. *)
Definition dump_json (path : str) (data : json) : HM unit :=
  h <- hask ;;
  hemit (WriteJson path data (write_json h path data)) ;;
  match write_json h path data with
  | None => hret tt
  | Some e => hraise e
  end.

(** [with open(path, "r", encoding="utf-8") as f: json.load(f)]. *)
Definition load_json (path : str) : HM json :=
  h <- hask ;;
  hemit (ReadJson path (read_json h path)) ;;
  match read_json h path with
  | Ok v => hret v
  | Err e => hraise e
  end.

(** [try: body / except Exception as e: handler e]: [SystemExit] passes. *)
Definition htry_except {A} (body : HM A) (handler : exn -> HM A) : HM A :=
  fun h env s =>
    match body h env s with
    | (Raises e, s1, t1) =>
        match handler e h env s1 with
        | (c, s2, t2) => (c, s2, t1 ++ t2)
        end
    | r => r
    end.

(** [try: body / except SystemExit: on_exit / except Exception as e:
    on_exception e]. *)
Definition htry_except_exit {A} (body : HM A) (on_exit : HM A)
    (on_exception : exn -> HM A) : HM A :=
  fun h env s =>
    match body h env s with
    | (Exits _, s1, t1) =>
        match on_exit h env s1 with
        | (c, s2, t2) => (c, s2, t1 ++ t2)
        end
    | (Raises e, s1, t1) =>
        match on_exception e h env s1 with
        | (c, s2, t2) => (c, s2, t1 ++ t2)
        end
    | r => r
    end.

(** The body of a [def] that returns nothing. *)
Definition hdef (body : HM unit) : HM unit := fun h env s =>
  match body h env s with
  | (Returns, s1, t1) => (Falls tt, s1, t1)
  | r => r
  end.

(** A call of a function of the check. *)
Definition call_check (m : M unit) : HM unit := fun _ env s =>
  match m env (check_store s) with
  | (c, s1, t) =>
      (match c with
       | Normal a => Falls a
       | Abrupt Return_ => Returns
       | Abrupt (Raise e) => Raises e
       | Abrupt Unfinished => Stalls
       end,
       HostStore s1 (inputs s), map Check t)
  end.

(** ** The functions *)

Definition get_base_dir (h : host) : str :=
  if sys_frozen h then os_path_dirname h (sys_executable h)
  else os_path_dirname h (os_path_abspath h (module_file h)).

Definition ensure_config_exists (config_filename : str) : HM str :=
  h <- hask ;;
  let base_dir := get_base_dir h in
  let config_path := os_path_join h base_dir config_filename in
  found <- path_exists config_path ;;
  (if negb found then
     hprint HostConfigNotFound ;;
     hprint (HostExpectedPath config_path) ;;
     hprint HostCreatingTemplate ;;
     let config_data := create_default_config_dict in
     htry_except
       (dump_json config_path config_data ;;
        hprint HostTemplateCreated ;;
        hprint HostPleaseEdit)
       (fun e => hprint (HostTemplateFailed e)) ;;
     input (py "Press ENTER to exit...") ;;
     sys_exit 1
   else hret tt) ;;
  hret config_path.

Definition load_config (config_filename : str) : HM json :=
  config_path <- ensure_config_exists config_filename ;;
  config <- load_json config_path ;;
  hret config.

Definition main : HM unit :=
  hdef (
    config <-
      htry_except_exit
        (load_config (py "config.json"))
        hreturn
        (fun e =>
           hprint (HostFatal e) ;;
           input (py "Press ENTER to exit...") ;;
           hreturn) ;;
    call_check (run_single_check config)).

(** The path of the configuration file. *)
Definition config_path (h : host) : str :=
  os_path_join h (get_base_dir h) (py "config.json").

Definition host_store0 : host_store := HostStore store0 0.

Definition ending_of {A} (r : ending A * host_store * list host_event)
  : ending A := fst (fst r).
Definition host_trace {A} (r : ending A * host_store * list host_event)
  : list host_event := snd r.

Definition is_check_event (e : host_event) : bool :=
  match e with Check _ => true | _ => false end.
Definition is_write (e : host_event) : bool :=
  match e with WriteJson _ _ _ => true | _ => false end.
Definition is_read (e : host_event) : bool :=
  match e with ReadJson _ _ => true | _ => false end.
Definition is_exit (e : host_event) : bool :=
  match e with SysExit _ => true | _ => false end.

Definition hcount (p : host_event -> bool) (t : list host_event) : nat :=
  List.length (filter p t).

(** ** What [main] does *)

Ltac unfold_h :=
  unfold main, load_config, ensure_config_exists, path_exists, dump_json,
    load_json, input, sys_exit, call_check, htry_except, htry_except_exit,
    hdef, hbind, hret, hask, hemit, hprint, hraise, hreturn.

(** Asks the console about every line that is printed. *)
Ltac ask_host h :=
  repeat match goal with
  | |- context [console_encodes h ?l] =>
      destruct (console_encodes h l) eqn:?; cbn
  | |- context [stdin_input h ?n] =>
      destruct (stdin_input h n) eqn:?; cbn
  end.

Lemma main_with_config h env s config :
  os_path_exists h (config_path h) = true ->
  read_json h (config_path h) = Ok config ->
  main h env s =
  (match outcome (run_single_check config env (check_store s)) with
   | Normal _ => Falls tt
   | Abrupt Return_ => Falls tt
   | Abrupt (Raise e) => Raises e
   | Abrupt Unfinished => Stalls
   end,
   HostStore (final_store (run_single_check config env (check_store s)))
     (inputs s),
   PathExists (config_path h) true ::
   ReadJson (config_path h) (Ok config) ::
   map Check (trace_of (run_single_check config env (check_store s)))).
Proof.
  intros Hex Hread. unfold_h. unfold config_path in *.
  set (path := os_path_join h (get_base_dir h) (py "config.json")) in *.
  rewrite Hex. cbn. rewrite Hread. cbn.
  destruct (run_single_check config env (check_store s))
    as [[[[]|[| e |]] s1] t]; reflexivity.
Qed.

(** The handler of [main] for the exception [e], when [input] has been
    called [n] times: the exception is reported and the console is waited
    for; or the console cannot print the report, and [print] raises. *)
Definition fatal_end (h : host) (n : nat) (e : exn) : ending unit :=
  if host_printable h (HostFatal e) then
    match stdin_input h n with
    | None => Falls tt
    | Some e' => Raises e'
    end
  else Raises UnicodeEncodeError.

Definition fatal_steps (h : host) (n : nat) (e : exn) : list host_event :=
  if host_printable h (HostFatal e) then
    [ HostPrint (HostFatal e);
      Input (py "Press ENTER to exit...") (stdin_input h n) ]
  else [].

Lemma main_unreadable h env s e :
  os_path_exists h (config_path h) = true ->
  read_json h (config_path h) = Err e ->
  ending_of (main h env s) = fatal_end h (inputs s) e /\
  host_trace (main h env s) =
    PathExists (config_path h) true ::
    ReadJson (config_path h) (Err e) ::
    fatal_steps h (inputs s) e.
Proof.
  intros Hex Hread. unfold_h.
  unfold fatal_end, fatal_steps, host_printable, config_path in *.
  set (path := os_path_join h (get_base_dir h) (py "config.json")) in *.
  set (prompt := py "Press ENTER to exit...").
  rewrite Hex. cbn. rewrite Hread. cbn.
  ask_host h; auto.
Qed.

(** The lines about the template can be printed: the path of the file,
    and the failure to write it, if it fails. *)
Definition template_told (h : host) (path : str) : bool :=
  host_printable h (HostExpectedPath path) &&
  match write_json h path create_default_config_dict with
  | None => true
  | Some e => host_printable h (HostTemplateFailed e)
  end.

(** What [main] prints and asks when there is no configuration file, up to
    the first [input]. *)
Definition template_steps (h : host) : list host_event :=
  PathExists (config_path h) false ::
  HostPrint HostConfigNotFound ::
  if host_printable h (HostExpectedPath (config_path h)) then
    [ HostPrint (HostExpectedPath (config_path h));
      HostPrint HostCreatingTemplate;
      WriteJson (config_path h) create_default_config_dict
        (write_json h (config_path h) create_default_config_dict) ] ++
    match write_json h (config_path h) create_default_config_dict with
    | None => [HostPrint HostTemplateCreated; HostPrint HostPleaseEdit]
    | Some e =>
        if host_printable h (HostTemplateFailed e)
        then [HostPrint (HostTemplateFailed e)] else []
    end
  else [].

Lemma main_without_config h env s :
  os_path_exists h (config_path h) = false ->
  ending_of (main h env s) =
    (if template_told h (config_path h) then
       match stdin_input h (inputs s) with
       | None => Falls tt
       | Some e => fatal_end h (S (inputs s)) e
       end
     else fatal_end h (inputs s) UnicodeEncodeError) /\
  host_trace (main h env s) =
    template_steps h ++
    (if template_told h (config_path h) then
       match stdin_input h (inputs s) with
       | None => [Input (py "Press ENTER to exit...") None; SysExit 1]
       | Some e =>
           Input (py "Press ENTER to exit...") (Some e) ::
           fatal_steps h (S (inputs s)) e
       end
     else fatal_steps h (inputs s) UnicodeEncodeError).
Proof.
  intros Hex. unfold_h.
  unfold template_steps, template_told, fatal_end, fatal_steps,
    host_printable, config_path in *.
  set (path := os_path_join h (get_base_dir h) (py "config.json")) in *.
  set (prompt := py "Press ENTER to exit...").
  set (template := create_default_config_dict).
  rewrite Hex. cbn.
  destruct (write_json h path template) as [e|]; cbn; ask_host h; auto.
Qed.

(** A machine where the program is [/opt/keepbot/main.py], the console
    prints every line and answers, and the configuration file is there or
    not, with the content [content]. *)
Definition a_host (found : bool) (content : result json) : host :=
  Host false (py "/usr/bin/python3") (py "main.py")
    (fun _ => py "/opt/keepbot") (fun p => py "/opt/keepbot/" ++ p)
    (fun dir name => dir ++ py "/" ++ name)
    (fun _ => found) (fun _ _ => None) (fun _ => content) (fun _ => None)
    (fun _ => true).

(** X16.  With a configuration file that loads, [main] is the check and
    nothing else: it tests that the file exists, reads it, and runs
    [run_single_check] on what it read; it returns when the check returns,
    and an exception of the check (a missing "url", a failure of the
    alert's composition) leaves [main] unhandled. *)
Theorem main_runs_the_check_unguarded h env s config :
  os_path_exists h (config_path h) = true ->
  read_json h (config_path h) = Ok config ->
  let check := run_single_check config env (check_store s) in
  host_trace (main h env s) =
    PathExists (config_path h) true ::
    ReadJson (config_path h) (Ok config) ::
    map Check (trace_of check) /\
  (outcome check = Normal tt -> ending_of (main h env s) = Falls tt) /\
  (forall e, outcome check = Abrupt (Raise e) ->
             ending_of (main h env s) = Raises e).
Proof.
  intros Hex Hread. cbn zeta.
  rewrite (main_with_config h env s config Hex Hread).
  cbn [host_trace ending_of fst snd].
  repeat split; intros; now rewrite H.
Qed.

Lemma main_runs_the_check_unguarded_witness :
  let h := a_host true (Ok (JObj [(py "expected_text", the_text)])) in
  let check :=
    run_single_check (JObj [(py "expected_text", the_text)])
      (calm (py "Hello")) store0 in
  host_trace (main h (calm (py "Hello")) host_store0) =
    PathExists (config_path h) true ::
    ReadJson (config_path h) (Ok (JObj [(py "expected_text", the_text)])) ::
    map Check (trace_of check) /\
  (outcome check = Normal tt ->
   ending_of (main h (calm (py "Hello")) host_store0) = Falls tt) /\
  (forall e, outcome check = Abrupt (Raise e) ->
             ending_of (main h (calm (py "Hello")) host_store0) = Raises e).
Proof.
  exact (main_runs_the_check_unguarded
           (a_host true (Ok (JObj [(py "expected_text", the_text)])))
           (calm (py "Hello")) host_store0
           (JObj [(py "expected_text", the_text)]) eq_refl eq_refl).
Defined.

(** X17.  Without a configuration file [main] never checks anything: it
    reads nothing, starts no browser and sends no alert.  It writes the
    default configuration, once, to the path of the file, unless the
    console cannot print that path: then [print] raises before the file is
    written, and nothing is written.  When the console prints the lines
    about the template and answers, [sys.exit(1)] is called and [main]
    absorbs it and returns.  When [input] raises, or [print] raised before
    it, the exit is not reached: the exception is reported as a failure to
    load the configuration and [input] is called again, whose exception, if
    any, leaves [main]; and if the console cannot print that report, the
    exception of [print] leaves [main]. *)
Theorem main_without_configuration_file h env s :
  os_path_exists h (config_path h) = false ->
  let t := host_trace (main h env s) in
  hcount is_check_event t = 0%nat /\
  hcount is_read t = 0%nat /\
  filter is_write t =
    (if host_printable h (HostExpectedPath (config_path h)) then
       [WriteJson (config_path h) create_default_config_dict
          (write_json h (config_path h) create_default_config_dict)]
     else []) /\
  if template_told h (config_path h) then
    match stdin_input h (inputs s) with
    | None => ending_of (main h env s) = Falls tt /\ In (SysExit 1) t
    | Some e =>
        hcount is_exit t = 0%nat /\
        if host_printable h (HostFatal e) then
          In (HostPrint (HostFatal e)) t /\
          ending_of (main h env s) =
            match stdin_input h (S (inputs s)) with
            | None => Falls tt
            | Some e' => Raises e'
            end
        else ending_of (main h env s) = Raises UnicodeEncodeError
    end
  else
    hcount is_exit t = 0%nat /\
    ending_of (main h env s) = fatal_end h (inputs s) UnicodeEncodeError.
Proof.
  intros Hex. cbn zeta.
  destruct (main_without_config h env s Hex) as (-> & ->).
  unfold template_steps, template_told, fatal_end, fatal_steps,
    host_printable.
  cbn [host_plain orb].
  destruct (write_json h (config_path h) create_default_config_dict)
    as [e|]; cbn -[config_path]; ask_host h; repeat split; auto 10.
Qed.

Lemma main_without_configuration_file_witness :
  let h := a_host false (Err ValueError) in
  let t := host_trace (main h (calm (py "Hello")) host_store0) in
  hcount is_check_event t = 0%nat /\
  hcount is_read t = 0%nat /\
  filter is_write t =
    [WriteJson (config_path h) create_default_config_dict None] /\
  ending_of (main h (calm (py "Hello")) host_store0) = Falls tt /\
  In (SysExit 1) t.
Proof.
  exact (main_without_configuration_file (a_host false (Err ValueError))
           (calm (py "Hello")) host_store0 eq_refl).
Defined.

(** X18.  When the configuration file exists and cannot be loaded (it
    cannot be opened, or it is not JSON), [main] checks nothing.  When the
    console can print the exception, [main] reports it, waits for the
    console and returns, and if the console does not answer, the exception
    of [input] leaves [main]; when the console cannot print the exception,
    nothing is printed, the console is not waited for, and the
    [UnicodeEncodeError] of [print] leaves [main]. *)
Theorem main_with_unreadable_configuration h env s e :
  os_path_exists h (config_path h) = true ->
  read_json h (config_path h) = Err e ->
  if host_printable h (HostFatal e) then
    host_trace (main h env s) =
      [ PathExists (config_path h) true;
        ReadJson (config_path h) (Err e);
        HostPrint (HostFatal e);
        Input (py "Press ENTER to exit...") (stdin_input h (inputs s)) ] /\
    ending_of (main h env s) =
      match stdin_input h (inputs s) with
      | None => Falls tt
      | Some e' => Raises e'
      end
  else
    host_trace (main h env s) =
      [ PathExists (config_path h) true;
        ReadJson (config_path h) (Err e) ] /\
    ending_of (main h env s) = Raises UnicodeEncodeError.
Proof.
  intros Hex Hread.
  destruct (main_unreadable h env s e Hex Hread) as (-> & ->).
  unfold fatal_end, fatal_steps.
  destruct (host_printable h (HostFatal e)); split; reflexivity.
Qed.

Lemma main_with_unreadable_configuration_witness :
  let h := a_host true (Err ValueError) in
  host_trace (main h (calm (py "Hello")) host_store0) =
    [ PathExists (config_path h) true;
      ReadJson (config_path h) (Err ValueError);
      HostPrint (HostFatal ValueError);
      Input (py "Press ENTER to exit...") None ] /\
  ending_of (main h (calm (py "Hello")) host_store0) = Falls tt.
Proof.
  exact (main_with_unreadable_configuration (a_host true (Err ValueError))
           (calm (py "Hello")) host_store0 ValueError eq_refl eq_refl).
Defined.

Lemma fatal_end_cases h n e :
  fatal_end h n e = Falls tt \/ exists e', fatal_end h n e = Raises e'.
Proof.
  unfold fatal_end.
  destruct (host_printable h (HostFatal e)); [|eauto].
  destruct (stdin_input h n); eauto.
Qed.

(** X19.  [main] never ends by [SystemExit]: it returns, or an exception
    leaves it.  The [sys.exit(1)] of [ensure_config_exists] is caught in
    [main], which returns. *)
Theorem main_never_exits h env s :
  ending_of (main h env s) = Falls tt \/
  exists e, ending_of (main h env s) = Raises e.
Proof.
  destruct (os_path_exists h (config_path h)) eqn:Hex.
  - destruct (read_json h (config_path h)) as [config|e] eqn:Hread.
    + rewrite (main_with_config h env s config Hex Hread).
      cbn [ending_of fst].
      destruct (run_single_check_outcome config env (check_store s))
        as [->|(e & ->)]; eauto.
    + destruct (main_unreadable h env s e Hex Hread) as (-> & _).
      apply fatal_end_cases.
  - destruct (main_without_config h env s Hex) as (-> & _).
    destruct (template_told h (config_path h));
      [destruct (stdin_input h (inputs s)); [|now left]|];
      apply fatal_end_cases.
Qed.

(** What [main] may do to the file system. *)
Definition file_step (h : host) (e : host_event) : Prop :=
  match e with
  | PathExists path _ => path = config_path h
  | WriteJson path data _ =>
      path = config_path h /\
      data = create_default_config_dict /\
      os_path_exists h path = false
  | ReadJson path _ =>
      path = config_path h /\ os_path_exists h path = true
  | SysExit code => code = 1
  | _ => True
  end.

(** X20.  [main] touches one file, "config.json" in the directory of the
    program ([get_base_dir]): it writes it only when it does not exist, and
    then writes the default configuration, so an existing configuration is
    never overwritten; it reads it only when it exists; and the only exit
    status it asks for is 1. *)
Theorem main_touches_only_the_configuration_file h env s :
  config_path h =
    os_path_join h
      (if sys_frozen h then os_path_dirname h (sys_executable h)
       else os_path_dirname h (os_path_abspath h (module_file h)))
      (py "config.json") /\
  Forall (file_step h) (host_trace (main h env s)).
Proof.
  split; [reflexivity|].
  destruct (os_path_exists h (config_path h)) eqn:Hex.
  - destruct (read_json h (config_path h)) as [config|e] eqn:Hread.
    + rewrite (main_with_config h env s config Hex Hread).
      cbn [host_trace snd]. repeat constructor; auto.
      apply Forall_forall. intros x Hx.
      apply in_map_iff in Hx as (y & <- & _). exact I.
    + destruct (main_unreadable h env s e Hex Hread) as (_ & ->).
      unfold fatal_steps.
      destruct (host_printable h (HostFatal e)); repeat constructor; auto.
  - destruct (main_without_config h env s Hex) as (_ & ->).
    unfold template_steps, template_told, fatal_steps, host_printable.
    cbn [host_plain orb].
    destruct (write_json h (config_path h) create_default_config_dict)
      as [e|]; cbn -[config_path]; ask_host h; repeat constructor; auto.
Qed.

(** X21.  [ensure_config_exists] returns the path of the file only when
    the file exists.  When it does not, and the console can print the
    lines about the template, the function ends by [sys.exit(1)] whether
    the template could be written or not, unless [input] raises, and then
    by that exception; when the console cannot print one of these lines,
    it ends by the [UnicodeEncodeError] of [print], before [input]. *)
Theorem ensure_config_exists_returns_an_existing_path
    config_filename h env s :
  let path := os_path_join h (get_base_dir h) config_filename in
  ending_of (ensure_config_exists config_filename h env s) =
  if os_path_exists h path then Falls path
  else if template_told h path then
    match stdin_input h (inputs s) with
    | None => Exits 1
    | Some e => Raises e
    end
  else Raises UnicodeEncodeError.
Proof.
  cbn zeta. unfold_h. unfold template_told, host_printable.
  set (path := os_path_join h (get_base_dir h) config_filename).
  set (template := create_default_config_dict).
  destruct (os_path_exists h path); cbn; [reflexivity|].
  destruct (console_encodes h (HostExpectedPath path)); cbn; [|reflexivity].
  destruct (write_json h path template) as [e|]; cbn;
    [destruct (console_encodes h (HostTemplateFailed e)); cbn|];
    try (destruct (stdin_input h (inputs s))); reflexivity.
Qed.

(** A machine whose console is ASCII and whose program lives in a
    directory with an accent: without a configuration file nothing is
    written, and the exception of [print] is reported in its place. *)
Example ascii_console_writes_no_template :
  let h :=
    Host false (py "/usr/bin/python3") (py "main.py")
      (fun _ => py "/home/r" ++ [250%N] ++ py "ben")
      (fun p => p) (fun dir name => dir ++ py "/" ++ name)
      (fun _ => false) (fun _ _ => None) (fun _ => Err ValueError)
      (fun _ => None)
      (fun line =>
         match line with
         | HostExpectedPath p => forallb (fun c => N.ltb c 128) p
         | _ => true
         end) in
  let run := main h (calm (py "Hello")) host_store0 in
  filter is_write (host_trace run) = [] /\
  In (HostPrint (HostFatal UnicodeEncodeError)) (host_trace run) /\
  hcount is_exit (host_trace run) = 0%nat /\
  ending_of run = Falls tt.
Proof. vm_compute. auto 10. Qed.
